(** * PD-manipulation: the cascading text-replacement pipeline of
      [pdf_processor.py], embedded in Rocq.

    The development follows the Python module top-down:
    - [PyStr]      the string primitives the module relies on
                   ([in], [str.replace], [str.strip], [str.lstrip], [int(_, 16)]);
    - [hex_to_rgb] the colour helper;
    - the document model (spans, lines, blocks, pages, documents) together
      with the PyMuPDF / PyPDF2 primitives the strategies call;
    - the seven strategies and [process_pdf];
    - the theorems.

    Floating-point numbers (coordinates, font sizes, colour components) are
    represented by rationals [Q]. *)

From Stdlib Require Import Ascii String QArith Lqa.
From stdpp Require Import gmap strings list fin_maps.

Local Open Scope string_scope.
Local Open Scope Z_scope.
Local Open Scope list_scope.

(** ** Python string primitives *)

Module PyStr.

(** [needle in hay] *)
Fixpoint contains (needle hay : string) : bool :=
  String.prefix needle hay ||
  match hay with
  | EmptyString => false
  | String _ rest => contains needle rest
  end.

(** Worker of [replace] for a non-empty [old]: [skip] counts the characters
    of a match that are still to be consumed. *)
Fixpoint replace_go (old new : string) (skip : nat) (s : string) : string :=
  match s with
  | EmptyString => EmptyString
  | String c rest =>
      match skip with
      | S k => replace_go old new k rest
      | O =>
          if String.prefix old s
          then new +:+ replace_go old new (String.length old - 1) rest
          else String c (replace_go old new 0 rest)
      end
  end.

Fixpoint interleave (sep s : string) : string :=
  match s with
  | EmptyString => sep
  | String c rest => sep +:+ String c (interleave sep rest)
  end.

(** [s.replace(old, new)]: every non-overlapping occurrence, leftmost first.
    With an empty [old] Python inserts [new] around every character. *)
Definition replace (old new s : string) : string :=
  match old with
  | EmptyString => interleave new s
  | _ => replace_go old new 0 s
  end.

(** Characters [str.strip()] removes: the code points below 256 for which
    [str.isspace] holds. *)
Definition is_space (c : ascii) : bool :=
  let n := nat_of_ascii c in
  ((9 <=? n) && (n <=? 13) || (28 <=? n) && (n <=? 32)
   || (n =? 133) || (n =? 160))%nat.

Fixpoint lstrip_space (s : string) : string :=
  match s with
  | String c rest => if is_space c then lstrip_space rest else s
  | EmptyString => EmptyString
  end.

Fixpoint rstrip_space (s : string) : string :=
  match s with
  | EmptyString => EmptyString
  | String c rest =>
      match rstrip_space rest with
      | EmptyString => if is_space c then EmptyString else String c EmptyString
      | r => String c r
      end
  end.

(** [s.strip()] *)
Definition strip (s : string) : string := rstrip_space (lstrip_space s).

(** Truth value of a string: non-empty. *)
Definition truthy (s : string) : bool :=
  match s with EmptyString => false | _ => true end.

(** [s.lstrip(chars)] for a one-character [chars]. *)
Fixpoint lstrip_char (ch : ascii) (s : string) : string :=
  match s with
  | String c rest => if Ascii.eqb c ch then lstrip_char ch rest else s
  | EmptyString => EmptyString
  end.

(** [s[i:i+n]] for [0 <= i]: slices never raise, they truncate. *)
Definition slice (i n : nat) (s : string) : string := String.substring i n s.

Definition hex_digit (c : ascii) : option Z :=
  let n := Z.of_nat (nat_of_ascii c) in
  if (48 <=? n) && (n <=? 57) then Some (n - 48)
  else if (97 <=? n) && (n <=? 102) then Some (n - 87)
  else if (65 <=? n) && (n <=? 70) then Some (n - 55)
  else None.

Fixpoint hex_digits (acc : Z) (s : string) : option Z :=
  match s with
  | EmptyString => Some acc
  | String c rest =>
      match hex_digit c with
      | Some d => hex_digits (16 * acc + d) rest
      | None => None
      end
  end.

Definition is_hex (c : ascii) : bool :=
  match hex_digit c with Some _ => true | None => false end.

(** Strings made of hexadecimal digits only. *)
Fixpoint all_hex (s : string) : bool :=
  match s with
  | EmptyString => true
  | String c rest => is_hex c && all_hex rest
  end.

(** [int(s, 16)]; [None] stands for [ValueError].  Surrounding white space
    and a sign are accepted as in Python.  The [0x] prefix and digit-group
    underscores are not modelled: both need at least three characters to be
    valid, and the only caller passes slices of at most two. *)
Definition int16 (s : string) : option Z :=
  let t := strip s in
  let '(sign, body) :=
    match t with
    | String "+"%char r => (1, r)
    | String "-"%char r => (-1, r)
    | _ => (1, t)
    end in
  match body with
  | EmptyString => None
  | _ => (Z.mul sign) <$> hex_digits 0 body
  end.

End PyStr.

(** ** [hex_to_rgb] *)

Definition RGB : Type := (Q * Q * Q)%type.

(** [tuple(int(hex_color[i:i+2], 16) / 255.0 for i in (0, 2, 4))] after
    [hex_color = hex_color.lstrip('#')]; [None] stands for the [ValueError]
    of [int]. *)
Definition hex_to_rgb (hex_color : string) : option RGB :=
  let hex_color := PyStr.lstrip_char "#"%char hex_color in
  let comp (i : nat) : option Q :=
    (fun n => inject_Z n / 255)%Q <$> PyStr.int16 (PyStr.slice i 2 hex_color) in
  r ← comp 0%nat; g ← comp 2%nat; b ← comp 4%nat; Some (r, g, b).

(** The accent colour used by every strategy, [hex_to_rgb("#0066cc")]. *)
Definition accent_hex : string := "#0066cc".


(** ** Document model *)

Record Point := mkPoint { px : Q; py : Q }.

Record Rect := mkRect { x0 : Q; y0 : Q; x1 : Q; y1 : Q }.

(** A Python value found under a span's ["color"] key. *)
Inductive PyValue :=
| PyInt (n : Z)
| PyFloat (q : Q)
| PySeq (l : list Q)     (* a tuple or list of numbers *)
| PyOther.               (* any other object *)

(** A span dictionary of [page.get_text("dict")].  [span_color = None] stands
    for a dictionary without the ["color"] key. *)
Record Span := mkSpan {
  span_text : string;
  span_font : string;
  span_size : Q;
  span_bbox : Rect;
  span_origin : Point;
  span_color : option PyValue
}.

(** [line["spans"]] *)
Definition Line : Type := list Span.

(** A block is a text block (it has the key ["lines"]) or an image block. *)
Inductive Block :=
| TextBlock (lines : list Line)
| ImageBlock.

(** Vector content painted on a page. *)
Inductive Drawing :=
| FilledRect (r : Rect) (stroke fill : RGB)   (* [page.draw_rect] *)
| RedactFill (r : Rect) (fill : RGB).         (* left by [apply_redactions] *)

Record Page := mkPage {
  page_width : Q;
  page_height : Q;
  page_blocks : list Block;
  page_drawings : list Drawing
}.

Record Document := mkDocument { pages : list Page }.

Inductive Strategy := Clean | Minimal | Direct | Overlay | Precise | Standard | Simple.

#[global] Instance Strategy_eq_dec : EqDecision Strategy.
Proof. solve_decision. Defined.

(** ** Effects

    The state threaded through the module is the file system, a finite map
    from paths to the PDF documents stored there.  What a run does is
    recorded as a list of events, in the order they happen. *)

Inductive Event :=
| EvCall (s : Strategy)               (* a strategy function is entered *)
| EvReturn (s : Strategy) (ok : bool) (* ... and returns [ok] *)
| EvOpen (path : string)              (* an attempt to open a file for reading *)
| EvMkdir (path : string)             (* [path.parent.mkdir(parents=True, exist_ok=True)] *)
| EvWrite (path : string).            (* a document is written to [path] *)

Inductive Exn :=
| FileNotFoundError
| IndexError
| ValueError
| AttributeError
| FontError
| OSError.

(** State (file system), exceptions and an event log. *)
Definition M (A : Type) : Type :=
  gmap string Document -> (Exn + A) * gmap string Document * list Event.

Definition ret {A} (a : A) : M A := fun fs => (inr a, fs, []).

Definition raise {A} (e : Exn) : M A := fun fs => (inl e, fs, []).

Definition bindM {A B} (m : M A) (k : A -> M B) : M B :=
  fun fs =>
    match m fs with
    | (inl e, fs1, t1) => (inl e, fs1, t1)
    | (inr a, fs1, t1) =>
        let '(r, fs2, t2) := k a fs1 in (r, fs2, t1 ++ t2)
    end.

(** [try: m except Exception as e: h e] *)
Definition try_except {A} (m : M A) (h : Exn -> M A) : M A :=
  fun fs =>
    match m fs with
    | (inl e, fs1, t1) =>
        let '(r, fs2, t2) := h e fs1 in (r, fs2, t1 ++ t2)
    | ok => ok
    end.

Definition emit (ev : Event) : M unit := fun fs => (inr tt, fs, [ev]).

Definition lift_option {A} (e : Exn) (o : option A) : M A :=
  match o with Some a => ret a | None => raise e end.

Notation "'let!' x ':=' c 'in' k" := (bindM c (fun x => k))
  (at level 10, x name, c at level 100, k at level 200).
Notation "'run!' c 'in' k" := (bindM c (fun _ => k))
  (at level 10, c at level 100, k at level 200).

(** [for x in xs: acc = body(acc, x)] with an effectful body. *)
Fixpoint foldM {A B} (body : A -> B -> M A) (acc : A) (xs : list B) : M A :=
  match xs with
  | [] => ret acc
  | x :: rest => let! acc' := body acc x in foldM body acc' rest
  end.

(** What a run depends on and the module does not control: the fonts the
    rendering backend can resolve, the extent of a piece of text drawn at a
    point, the rectangles of an occurrence search, what a redaction leaves of
    a span that lies only partly under it, and the file system: where a
    directory can be made, where a write goes through ([writable]), and where
    a file can be opened for writing but the write then breaks off
    ([write_breaks]). *)
Record Env := mkEnv {
  font_resolves : string -> bool;
  text_bbox : Point -> string -> string -> Q -> Rect;
  search_for : Page -> string -> list Rect;
  partly_erased : Span -> Rect -> list Span;
  mkdir_ok : string -> bool;
  writable : string -> bool;
  write_breaks : string -> bool
}.

(** ** Library primitives *)

Definition white : RGB := (1, 1, 1)%Q.

Definition black : list Q := [0; 0; 0]%Q.

Definition rgb_list (c : RGB) : list Q := let '(r, g, b) := c in [r; g; b].

Definition Qltb (a b : Q) : bool := negb (Qle_bool b a).

(** [page.get_text("dict")["blocks"]] *)
Definition get_text_blocks (page : Page) : list Block := page_blocks page.

(** The text of a page as a plain string, one line of text per line
    ([page.extract_text()]). *)
Definition line_text (l : Line) : string := String.concat "" (span_text <$> l).

Definition block_lines (b : Block) : list Line :=
  match b with TextBlock ls => ls | ImageBlock => [] end.

Definition page_lines (page : Page) : list Line :=
  concat (block_lines <$> page_blocks page).

Definition extract_text (page : Page) : string :=
  String.concat (String "010"%char "") (line_text <$> page_lines page).

(** [page.draw_rect(rect, color=stroke, fill=fill)]: purely additive. *)
Definition draw_rect (page : Page) (r : Rect) (stroke fill : RGB) : Page :=
  {| page_width := page_width page; page_height := page_height page;
     page_blocks := page_blocks page;
     page_drawings := page_drawings page ++ [FilledRect r stroke fill] |}.

Definition rect_intersects (a b : Rect) : bool :=
  Qltb (x0 a) (x1 b) && Qltb (x0 b) (x1 a) &&
  Qltb (y0 a) (y1 b) && Qltb (y0 b) (y1 a).

Definition rect_contains (outer inner : Rect) : bool :=
  Qle_bool (x0 outer) (x0 inner) && Qle_bool (x1 inner) (x1 outer) &&
  Qle_bool (y0 outer) (y0 inner) && Qle_bool (y1 inner) (y1 outer).

(** What a redaction of the rectangle [r] leaves of a span.  Text is removed
    character by character: a span that does not meet the rectangle stays as
    it is, a span that lies inside it goes altogether, and of a span that
    lies partly under it the backend keeps the characters outside. *)
Definition erase_span (env : Env) (r : Rect) (s : Span) : list Span :=
  if negb (rect_intersects (span_bbox s) r) then [s]
  else if rect_contains r (span_bbox s) then []
  else partly_erased env s r.

Definition redact_line (env : Env) (r : Rect) (l : Line) : option Line :=
  match concat (erase_span env r <$> l) with
  | [] => None
  | l' => Some l'
  end.

Definition redact_block (env : Env) (r : Rect) (b : Block) : option Block :=
  match b with
  | ImageBlock => Some ImageBlock
  | TextBlock ls =>
      match omap (redact_line env r) ls with
      | [] => None
      | ls' => Some (TextBlock ls')
      end
  end.

(** [page.add_redact_annot(rect, fill=fill)] followed by
    [page.apply_redactions()]: the text under the rectangle is removed from
    the page and the rectangle is filled. *)
Definition redact (env : Env) (page : Page) (r : Rect) (fill : RGB) : Page :=
  {| page_width := page_width page; page_height := page_height page;
     page_blocks := omap (redact_block env r) (page_blocks page);
     page_drawings := page_drawings page ++ [RedactFill r fill] |}.

(** The colour check of [insert_text]: 1, 3 or 4 components, each in [0,1]. *)
Definition color_ok (c : list Q) : bool :=
  match c with
  | [] => true
  | _ =>
      bool_decide (length c ∈ [1; 3; 4]%nat) &&
      forallb (fun q => Qle_bool 0 q && Qle_bool q 1) c
  end.

Definition blank_page (w h : Q) : Page :=
  {| page_width := w; page_height := h; page_blocks := []; page_drawings := [] |}.

Definition set_page0 (doc : Document) (page : Page) : Document :=
  {| pages := <[0%nat := page]> (pages doc) |}.

Section Primitives.

Context (env : Env).

(** [fitz.open(path)], and [PyPDF2.PdfReader(open(path, 'rb'))] *)
Definition open_document (path : string) : M Document :=
  run! emit (EvOpen path) in
  fun fs => lift_option FileNotFoundError (fs !! path) fs.

(** [doc[i]] *)
Definition doc_getitem (doc : Document) (i : nat) : M Page :=
  lift_option IndexError (pages doc !! i).

(** [page.insert_text(point, text, fontsize=.., fontname=.., color=..)].
    Empty text is a no-op; an unresolvable font or an ill-formed colour
    raises.  The new text shows up as a block of its own at the end of the
    page. *)
Definition insert_text (page : Page) (point : Point) (text : string)
    (fontsize : Q) (fontname : string) (color : list Q) : M Page :=
  if negb (PyStr.truthy text) then ret page
  else if negb (font_resolves env fontname) then raise FontError
  else if negb (color_ok color) then raise ValueError
  else
    let span := {| span_text := text; span_font := fontname;
                   span_size := fontsize;
                   span_bbox := text_bbox env point text fontname fontsize;
                   span_origin := point;
                   span_color := Some (PySeq color) |} in
    ret {| page_width := page_width page; page_height := page_height page;
           page_blocks := page_blocks page ++ [TextBlock [[span]]];
           page_drawings := page_drawings page |}.

(** [output_path.parent.mkdir(parents=True, exist_ok=True)] *)
Definition mkdir_parent (output_path : string) : M unit :=
  run! emit (EvMkdir output_path) in
  if mkdir_ok env output_path then ret tt else raise OSError.

(** Writing a document to a path: [doc.save(path)], and
    [open(path, 'wb')] followed by [pdf_writer.write].  The write is not
    atomic.  Where it goes through, the path holds the document afterwards.
    Where the file can be opened but the write breaks off, the path has been
    truncated when the exception is raised: whatever document it held is
    gone.  Otherwise the file cannot be opened and nothing changes. *)
Definition write_file (output_path : string) (doc : Document) : M unit :=
  if writable env output_path
  then run! emit (EvWrite output_path) in
       fun fs => (inr tt, <[output_path := doc]> fs, [])
  else if write_breaks env output_path
  then run! emit (EvWrite output_path) in
       fun fs => (inl OSError, delete output_path fs, [])
  else raise OSError.

(** [doc.save(output_path)] for a document opened from [name]: saving over
    the file the document was opened from is refused. *)
Definition doc_save (name : string) (doc : Document) (output_path : string) : M unit :=
  if String.eqb output_path name then raise ValueError
  else write_file output_path doc.

(** The document after [new_page = doc.new_page(width=w, height=h)], once
    the page appended at the end has become [new_page]: the page object is
    a view into [doc], so what is drawn on it is drawn in [doc]. *)
Definition with_new_page (doc : Document) (new_page : Page) : Document :=
  {| pages := pages doc ++ [new_page] |}.

(** [doc.delete_page(0)] *)
Definition delete_page0 (doc : Document) : Document :=
  {| pages := drop 1 (pages doc) |}.

(** The second argument of [doc.insert_page(pno, text)]. *)
Inductive TextArg :=
| ArgStr (s : string)
| ArgPage (p : Page).

(** [doc.insert_page(pno, text)]: create a fresh page of the default size
    in front of page [pno] and write [text] on it at (50, 72) in the default
    font.  [text] has to be a string; the text insertion raises on anything
    else. *)
Definition insert_page (doc : Document) (pno : nat) (text : TextArg) : M Document :=
  let fresh := blank_page 595 842 in
  match text with
  | ArgStr s =>
      let! p := insert_text fresh (mkPoint 50 72) s 11 "helv" [0%Q] in
      ret {| pages := take pno (pages doc) ++ p :: drop pno (pages doc) |}
  | ArgPage _ => raise AttributeError
  end.

End Primitives.

(** ** The strategies *)

(** The search loops shared by all six [fitz] strategies: the first span, in
    block, line and span order, whose text contains [old_text]. *)
Fixpoint find_in_spans (old_text : string) (spans : list Span) : option Span :=
  match spans with
  | [] => None
  | span :: rest =>
      if PyStr.contains old_text (span_text span) then Some span
      else find_in_spans old_text rest
  end.

Fixpoint find_in_lines (old_text : string) (lines : list Line) : option Span :=
  match lines with
  | [] => None
  | line :: rest =>
      match find_in_spans old_text line with
      | Some span => Some span
      | None => find_in_lines old_text rest
      end
  end.

Fixpoint find_target_span (blocks : list Block) (old_text : string) : option Span :=
  match blocks with
  | [] => None
  | TextBlock lines :: rest =>
      match find_in_lines old_text lines with
      | Some span => Some span
      | None => find_target_span rest old_text
      end
  | ImageBlock :: rest => find_target_span rest old_text
  end.

(** [color=hex_to_rgb("#0066cc")] *)
Definition accent_color : M (list Q) :=
  let! c := lift_option ValueError (hex_to_rgb accent_hex) in ret (rgb_list c).

(** The colour of a span that is not recoloured, in [replace_text_direct] and
    [replace_text_precise]: [span.get("color", (0, 0, 0))] and the checks that
    follow it. *)
Definition normalize_color (c : option PyValue) : list Q :=
  match c with
  | None => black
  | Some (PyInt n) => if n >? 0 then black else black
  | Some (PyFloat q) => if Qltb 0 q then black else black
  | Some (PySeq l) =>
      if bool_decide (length l ∉ [1; 3; 4]%nat) then black else l
  | Some PyOther => black
  end.

(** The PDF user space of the watermark has its origin at the bottom left,
    the page model at the top left. *)
Definition pdf_to_page_point (page : Page) (x y : Q) : Point :=
  mkPoint x (page_height page - y).

(** [letter], the page size of the watermark canvas. *)
Definition letter : Q * Q := (612, 792)%Q.

Section Strategies.

Context (env : Env).

Definition replace_text_overlay_body
    (input_path output_path old_text new_text : string) : M bool :=
  let! doc := open_document input_path in
  let! page := doc_getitem doc 0 in
  let blocks := get_text_blocks page in
  match find_target_span blocks old_text with
  | None => ret false
  | Some target_span =>
      let rect := span_bbox target_span in
      let page := redact env page rect white in
      let point := mkPoint (x0 rect) (y1 rect - 2) in
      let! color := accent_color in
      let! page := insert_text env page point new_text
                     (span_size target_span) (span_font target_span) color in
      run! mkdir_parent env output_path in
      run! doc_save env input_path (set_page0 doc page) output_path in
      ret true
  end.

(** The copy loop of [replace_text_direct] and [replace_text_precise], one
    span at a time. *)
Definition copy_span (old_text new_text : string) (new_page : Page) (span : Span) : M Page :=
  let span_text := span_text span in
  let span_text :=
    if PyStr.contains old_text span_text
    then PyStr.replace old_text new_text span_text
    else span_text in
  if PyStr.truthy (PyStr.strip span_text) then
    let! color :=
      (if PyStr.contains new_text span_text then accent_color
       else ret (normalize_color (span_color span))) in
    let bbox := span_bbox span in
    insert_text env new_page (mkPoint (x0 bbox) (y1 bbox - 2)) span_text
      (span_size span) (span_font span) color
  else ret new_page.

Definition copy_line (old_text new_text : string) (new_page : Page) (line : Line) : M Page :=
  foldM (copy_span old_text new_text) new_page line.

Definition copy_block (old_text new_text : string) (new_page : Page) (block : Block) : M Page :=
  match block with
  | TextBlock lines => foldM (copy_line old_text new_text) new_page lines
  | ImageBlock => ret new_page
  end.

Definition copy_blocks (old_text new_text : string) (new_page : Page) (blocks : list Block) : M Page :=
  foldM (copy_block old_text new_text) new_page blocks.

Definition replace_text_direct_body
    (input_path output_path old_text new_text : string) : M bool :=
  let! doc := open_document input_path in
  let! page := doc_getitem doc 0 in
  let blocks := get_text_blocks page in
  match find_target_span blocks old_text with
  | None => ret false
  | Some target_span =>
      let new_page := blank_page (page_width page) (page_height page) in
      let! new_page := copy_blocks old_text new_text new_page blocks in
      let doc := with_new_page doc new_page in
      let doc := delete_page0 doc in
      let! doc := insert_page env doc 0 (ArgPage new_page) in
      run! mkdir_parent env output_path in
      run! doc_save env input_path doc output_path in
      ret true
  end.

Definition replace_text_clean_body
    (input_path output_path old_text new_text : string) : M bool :=
  let! doc := open_document input_path in
  let! page := doc_getitem doc 0 in
  let blocks := get_text_blocks page in
  match find_target_span blocks old_text with
  | None => ret false
  | Some target_span =>
      let bbox := span_bbox target_span in
      let expanded_rect :=
        mkRect (x0 bbox - 3) (y0 bbox - 3) (x1 bbox + 3) (y1 bbox + 3) in
      let page := draw_rect page expanded_rect white white in
      let point := mkPoint (x0 bbox) (y1 bbox - 5) in
      let! color := accent_color in
      let! page := insert_text env page point new_text
                     (span_size target_span) (span_font target_span) color in
      run! mkdir_parent env output_path in
      run! doc_save env input_path (set_page0 doc page) output_path in
      ret true
  end.

Definition replace_text_minimal_body
    (input_path output_path old_text new_text : string) : M bool :=
  let! doc := open_document input_path in
  let! page := doc_getitem doc 0 in
  let blocks := get_text_blocks page in
  match find_target_span blocks old_text with
  | None => ret false
  | Some target_span =>
      let bbox := span_bbox target_span in
      let expanded_rect :=
        mkRect (x0 bbox - 2) (y0 bbox - 2) (x1 bbox + 2) (y1 bbox + 2) in
      let page := redact env page expanded_rect white in
      let point := mkPoint (x0 bbox) (y1 bbox - 2) in
      let! color := accent_color in
      let! page := insert_text env page point new_text
                     (span_size target_span) (span_font target_span) color in
      run! mkdir_parent env output_path in
      run! doc_save env input_path (set_page0 doc page) output_path in
      ret true
  end.

Definition replace_text_precise_body
    (input_path output_path old_text new_text : string) : M bool :=
  let! doc := open_document input_path in
  let! page := doc_getitem doc 0 in
  let blocks := get_text_blocks page in
  match find_target_span blocks old_text with
  | None => ret false
  | Some target_span =>
      let new_page := blank_page (page_width page) (page_height page) in
      let! new_page := copy_blocks old_text new_text new_page blocks in
      let doc := with_new_page doc new_page in
      let doc := delete_page0 doc in
      let! doc := insert_page env doc 0 (ArgPage new_page) in
      run! mkdir_parent env output_path in
      run! doc_save env input_path doc output_path in
      ret true
  end.

(** One round of the loop of [replace_text_in_pdf] over the occurrence
    rectangles. *)
Definition replace_instance (target_span : Span) (new_text : string)
    (page : Page) (rect : Rect) : M Page :=
  let page := redact env page rect white in
  let point := mkPoint (x0 rect) (y1 rect - 2) in
  let! color := accent_color in
  insert_text env page point new_text
    (span_size target_span) (span_font target_span) color.

Definition replace_text_in_pdf_body
    (input_path output_path old_text new_text : string) : M bool :=
  let! doc := open_document input_path in
  let! page := doc_getitem doc 0 in
  let text_dict := get_text_blocks page in
  match find_target_span text_dict old_text with
  | None => ret false
  | Some target_span =>
      match search_for env page old_text with
      | [] => ret false
      | text_instances =>
          let! page := foldM (replace_instance target_span new_text) page text_instances in
          run! mkdir_parent env output_path in
          run! doc_save env input_path (set_page0 doc page) output_path in
          ret true
      end
  end.

(** The watermark drawn by [process_pdf_simple]: "PD Report" in blue
    Helvetica-Bold 24 at [(50, height - 100)] of a letter-size canvas. *)
Definition watermark_span (page : Page) : Span :=
  let origin := pdf_to_page_point page 50 (snd letter - 100) in
  {| span_text := "PD Report"; span_font := "Helvetica-Bold"; span_size := 24;
     span_bbox := text_bbox env origin "PD Report" "Helvetica-Bold" 24;
     span_origin := origin;
     span_color := Some (PySeq [0; 0; 1]%Q) |}.

(** [page.merge_page(watermark_page)] *)
Definition merge_watermark (page : Page) : Page :=
  {| page_width := page_width page; page_height := page_height page;
     page_blocks := page_blocks page ++ [TextBlock [[watermark_span page]]];
     page_drawings := page_drawings page |}.

(** The body of the loop over [enumerate(pdf_reader.pages)]: the page handed
    to [pdf_writer.add_page]. *)
Definition simple_page (page_num : nat) (page : Page) : Page :=
  if (page_num =? 0)%nat then
    let page_text := extract_text page in
    if PyStr.contains "KYC Report" page_text then merge_watermark page
    else page
  else page.

Definition process_pdf_simple_body (input_path output_path : string) : M bool :=
  let! pdf_reader := open_document input_path in
  let pdf_writer := {| pages := imap simple_page (pages pdf_reader) |} in
  run! mkdir_parent env output_path in
  run! write_file env output_path pdf_writer in
  ret true.

(** Every strategy function is [try: body except Exception: return False]. *)
Definition guarded (s : Strategy) (body : M bool) : M bool :=
  run! emit (EvCall s) in
  let! ok := try_except body (fun _ => ret false) in
  run! emit (EvReturn s ok) in
  ret ok.

Definition replace_text_overlay (i o old_text new_text : string) : M bool :=
  guarded Overlay (replace_text_overlay_body i o old_text new_text).

Definition replace_text_direct (i o old_text new_text : string) : M bool :=
  guarded Direct (replace_text_direct_body i o old_text new_text).

Definition replace_text_clean (i o old_text new_text : string) : M bool :=
  guarded Clean (replace_text_clean_body i o old_text new_text).

Definition replace_text_minimal (i o old_text new_text : string) : M bool :=
  guarded Minimal (replace_text_minimal_body i o old_text new_text).

Definition replace_text_precise (i o old_text new_text : string) : M bool :=
  guarded Precise (replace_text_precise_body i o old_text new_text).

Definition replace_text_in_pdf (i o old_text new_text : string) : M bool :=
  guarded Standard (replace_text_in_pdf_body i o old_text new_text).

Definition process_pdf_simple (i o : string) : M bool :=
  guarded Simple (process_pdf_simple_body i o).

(** One [if method == name:] paragraph of [process_pdf]: run the strategy,
    return on success, otherwise go on with [method = next]. *)
Definition try_method (name next : string) (strategy : M bool)
    (rest : string -> M bool) (method : string) : M bool :=
  if String.eqb method name then
    let! success := strategy in
    if success then ret true else rest next
  else rest method.

Definition process_pdf (input_path output_path method : string) : M bool :=
  try_method "clean" "minimal"
    (replace_text_clean input_path output_path "KYC Report" "PD Report")
  (try_method "minimal" "direct"
    (replace_text_minimal input_path output_path "KYC Report" "PD Report")
  (try_method "direct" "overlay"
    (replace_text_direct input_path output_path "KYC Report" "PD Report")
  (try_method "overlay" "precise"
    (replace_text_overlay input_path output_path "KYC Report" "PD Report")
  (try_method "precise" "standard"
    (replace_text_precise input_path output_path "KYC Report" "PD Report")
  (try_method "standard" "simple"
    (replace_text_in_pdf input_path output_path "KYC Report" "PD Report")
  (fun method =>
     if String.eqb method "simple"
     then process_pdf_simple input_path output_path
     else ret false)))))) method.

End Strategies.

(** ** Observations on runs *)

(** The strategies a run attempted, with what each reported. *)
Definition attempts (t : list Event) : list (Strategy * bool) :=
  omap (fun ev => match ev with EvReturn s ok => Some (s, ok) | _ => None end) t.

(** The paths a run wrote to. *)
Definition writes (t : list Event) : list string :=
  omap (fun ev => match ev with EvWrite p => Some p | _ => None end) t.

(** The paths a run tried to open. *)
Definition opens (t : list Event) : list string :=
  omap (fun ev => match ev with EvOpen p => Some p | _ => None end) t.

Definition default_order : list Strategy :=
  [Clean; Minimal; Direct; Overlay; Precise; Standard; Simple].

(** The value of [--method] selecting a strategy. *)
Definition method_name (s : Strategy) : string :=
  match s with
  | Clean => "clean" | Minimal => "minimal" | Direct => "direct"
  | Overlay => "overlay" | Precise => "precise" | Standard => "standard"
  | Simple => "simple"
  end.

(** Position of a strategy in [default_order]. *)
Definition rank (s : Strategy) : nat :=
  match s with
  | Clean => 0 | Minimal => 1 | Direct => 2 | Overlay => 3
  | Precise => 4 | Standard => 5 | Simple => 6
  end.

(** The body of a strategy function, inside its [try]. *)
Definition strategy_body (env : Env) (s : Strategy)
    (i o old_text new_text : string) : M bool :=
  match s with
  | Clean => replace_text_clean_body env i o old_text new_text
  | Minimal => replace_text_minimal_body env i o old_text new_text
  | Direct => replace_text_direct_body env i o old_text new_text
  | Overlay => replace_text_overlay_body env i o old_text new_text
  | Precise => replace_text_precise_body env i o old_text new_text
  | Standard => replace_text_in_pdf_body env i o old_text new_text
  | Simple => process_pdf_simple_body env i o
  end.

(** The strategy function itself. *)
Definition strategy_fn (env : Env) (s : Strategy)
    (i o old_text new_text : string) : M bool :=
  match s with
  | Clean => replace_text_clean env i o old_text new_text
  | Minimal => replace_text_minimal env i o old_text new_text
  | Direct => replace_text_direct env i o old_text new_text
  | Overlay => replace_text_overlay env i o old_text new_text
  | Precise => replace_text_precise env i o old_text new_text
  | Standard => replace_text_in_pdf env i o old_text new_text
  | Simple => process_pdf_simple env i o
  end.

(** A fallback chain: run the strategies in turn until one reports success. *)
Fixpoint run_chain (chain : list (M bool)) : M bool :=
  match chain with
  | [] => ret false
  | m :: rest => let! success := m in if success then ret true else run_chain rest
  end.

(** The spans of a list of blocks, in the order the loops visit them. *)
Definition block_spans (b : Block) : list Span := concat (block_lines b).

Definition all_spans (blocks : list Block) : list Span :=
  concat (block_spans <$> blocks).

(** The text the copy loop draws for a span. *)
Definition copied_text (old_text new_text : string) (s : Span) : string :=
  if PyStr.contains old_text (span_text s)
  then PyStr.replace old_text new_text (span_text s)
  else span_text s.

(** The copy loop draws a span only if its text is not blank. *)
Definition emitted (old_text new_text : string) (s : Span) : bool :=
  PyStr.truthy (PyStr.strip (copied_text old_text new_text s)).

(** [s'] is what the copy loop draws for the span [s]: its text with the
    replacement applied, same font and size, at the left end of the box two
    units above its bottom; in the accent colour if the text contains the new
    text, otherwise in the colour of [s] if that is a sequence of 1, 3 or 4
    components and in black for any other sequence, for a missing colour and
    for a value that is neither a sequence nor a number.  (Numbers are left
    open here.) *)
Definition re_emitted (old_text new_text : string) (s s' : Span) : Prop :=
  span_text s' = copied_text old_text new_text s ∧
  span_font s' = span_font s ∧
  span_size s' = span_size s ∧
  span_origin s' = mkPoint (x0 (span_bbox s)) (y1 (span_bbox s) - 2) ∧
  (if PyStr.contains new_text (copied_text old_text new_text s)
   then span_color s' = (PySeq ∘ rgb_list) <$> hex_to_rgb accent_hex
   else match span_color s with
        | Some (PySeq l) =>
            span_color s' =
              Some (PySeq (if bool_decide (length l ∈ [1; 3; 4]%nat) then l else black))
        | None | Some PyOther => span_color s' = Some (PySeq black)
        | Some (PyInt _) | Some (PyFloat _) => True
        end).

(** A block holding one drawn span. *)
Definition drawn_block (s : Span) : Block := TextBlock [[s]].

(** ** Vocabulary of the statements *)

(** A colour component as [hex_to_rgb] computes it: a byte over 255. *)
Definition byte_fraction (q : Q) : Prop :=
  ∃ n : Z, 0 <= n <= 255 ∧ q = (inject_Z n / 255)%Q.

(** *** Outcomes and shapes of computations *)

(** What a [try ... except Exception: return False] makes of an outcome. *)
Definition absorbed (r : Exn + bool) : bool :=
  match r with inr b => b | inl _ => false end.

(** Computations that neither touch the file system nor log anything. *)
Definition pure_M {A} (m : M A) : Prop := ∃ r, ∀ fs, m fs = (r, fs, []).

(** The common shape of the in-place strategies: open, take page 0, compute
    the edited page (or find nothing to edit), save. *)
Definition page_strategy (env : Env) (plan : Page → M (option Page))
    (i o : string) : M bool :=
  let! doc := open_document i in
  let! page := doc_getitem doc 0 in
  let! edited := plan page in
  match edited with
  | None => ret false
  | Some page' =>
      run! mkdir_parent env o in
      run! doc_save env i (set_page0 doc page') o in
      ret true
  end.

Definition clean_plan (env : Env) (old_text new_text : string) (page : Page) : M (option Page) :=
  match find_target_span (get_text_blocks page) old_text with
  | None => ret None
  | Some target_span =>
      let bbox := span_bbox target_span in
      let expanded_rect :=
        mkRect (x0 bbox - 3) (y0 bbox - 3) (x1 bbox + 3) (y1 bbox + 3) in
      let page := draw_rect page expanded_rect white white in
      let! color := accent_color in
      let! page := insert_text env page (mkPoint (x0 bbox) (y1 bbox - 5)) new_text
                     (span_size target_span) (span_font target_span) color in
      ret (Some page)
  end.

Definition minimal_plan (env : Env) (old_text new_text : string) (page : Page) : M (option Page) :=
  match find_target_span (get_text_blocks page) old_text with
  | None => ret None
  | Some target_span =>
      let bbox := span_bbox target_span in
      let expanded_rect :=
        mkRect (x0 bbox - 2) (y0 bbox - 2) (x1 bbox + 2) (y1 bbox + 2) in
      let page := redact env page expanded_rect white in
      let! color := accent_color in
      let! page := insert_text env page (mkPoint (x0 bbox) (y1 bbox - 2)) new_text
                     (span_size target_span) (span_font target_span) color in
      ret (Some page)
  end.

Definition overlay_plan (env : Env) (old_text new_text : string) (page : Page) : M (option Page) :=
  match find_target_span (get_text_blocks page) old_text with
  | None => ret None
  | Some target_span =>
      let rect := span_bbox target_span in
      let page := redact env page rect white in
      let! color := accent_color in
      let! page := insert_text env page (mkPoint (x0 rect) (y1 rect - 2)) new_text
                     (span_size target_span) (span_font target_span) color in
      ret (Some page)
  end.

Definition standard_plan (env : Env) (old_text new_text : string) (page : Page) : M (option Page) :=
  match find_target_span (get_text_blocks page) old_text with
  | None => ret None
  | Some target_span =>
      match search_for env page old_text with
      | [] => ret None
      | text_instances =>
          let! page := foldM (replace_instance env target_span new_text) page text_instances in
          ret (Some page)
      end
  end.

(** Pages after the first are the same in both documents, and there are as
    many of them. *)
Definition same_tail (d d' : Document) : Prop :=
  length (pages d') = length (pages d) ∧
  ∀ n, (1 ≤ n)%nat → pages d' !! n = pages d !! n.

(** What a strategy does to the file system: nothing, a destination that
    [open(output_path, 'wb')] emptied before the write raised, or a document
    stored at the destination. *)
Inductive Effect :=
| Keep
| Drop
| Store (d : Document).

Definition apply_effect (o : string) (eff : Effect)
    (fs : gmap string Document) : gmap string Document :=
  match eff with
  | Keep => fs
  | Drop => delete o fs
  | Store d => <[o := d]> fs
  end.

(** A strategy body is determined by what the input path holds.  It fails
    without touching the file system, or fails in the write and leaves the
    destination without a document, or writes one document to the output path
    as its last step; what it writes depends on the input document through
    page 0 only.  [guard] is what is known when the write breaks. *)
Definition transactional (env : Env) (guard : Prop) (i o : string)
    (m : M bool) : Prop :=
  ∀ fs : gmap string Document, ∃ r eff t,
    (∀ fs2 : gmap string Document, fs2 !! i = fs !! i → m fs2 = (r, apply_effect o eff fs2, t)) ∧
    match eff with
    | Keep => r ≠ inr true ∧ (t = [EvOpen i] ∨ t = [EvOpen i; EvMkdir o])
    | Drop => (∃ e, r = inl e) ∧ t = [EvOpen i; EvMkdir o; EvWrite o] ∧
              writable env o = false ∧ write_breaks env o = true ∧ guard
    | Store d' =>
        r = inr true ∧ t = [EvOpen i; EvMkdir o; EvWrite o] ∧
        writable env o = true ∧
        ∃ d, fs !! i = Some d ∧ same_tail d d' ∧
          ∀ fs2 d2, fs2 !! i = Some d2 → pages d2 !! 0%nat = pages d !! 0%nat →
            ∃ d2', m fs2 = (inr true, <[o := d2']> fs2, t) ∧
                   pages d2' !! 0%nat = pages d' !! 0%nat
    end.

(** The events of one strategy function on a file system. *)
Definition trace_of (env : Env) (i o : string) (fs : gmap string Document)
    (s : Strategy) : list Event :=
  (strategy_fn env s i o "KYC Report" "PD Report" fs).2.

(** The verdict of one strategy function on a file system. *)
Definition verdict_of (env : Env) (i o : string) (fs : gmap string Document)
    (s : Strategy) : Exn + bool :=
  (strategy_fn env s i o "KYC Report" "PD Report" fs).1.1.

(** In a list of strategies, simple comes last if at all. *)
Definition simple_at_end (ss : list Strategy) : Prop :=
  ∀ pre post, ss = pre ++ Simple :: post → post = [].

(** Run the next primitive of a computation, in every outcome. *)
Ltac run_prim :=
  match goal with
  | |- context [open_document ?p ?fs] =>
      destruct (open_document p fs) as [ [ [?|?] ?] ?]
  | |- context [doc_getitem ?d ?n ?fs] =>
      destruct (doc_getitem d n fs) as [ [ [?|?] ?] ?]
  | |- context [accent_color ?fs] =>
      destruct (accent_color fs) as [ [ [?|?] ?] ?]
  | |- context [insert_text ?e ?pg ?pt ?tx ?sz ?fn ?c ?fs] =>
      destruct (insert_text e pg pt tx sz fn c fs) as [ [ [?|?] ?] ?]
  | |- context [foldM ?b ?a ?xs ?fs] =>
      destruct (foldM b a xs fs) as [ [ [?|?] ?] ?]
  | |- context [mkdir_parent ?e ?o ?fs] =>
      destruct (mkdir_parent e o fs) as [ [ [?|?] ?] ?]
  | |- context [doc_save ?e ?n ?d ?o ?fs] =>
      destruct (doc_save e n d o fs) as [ [ [?|?] ?] ?]
  end; cbv beta iota.

Ltac run_all := repeat run_prim; rewrite ?app_nil_r, <- ?app_assoc; try reflexivity.

(** The strategies of [default_order] from a given one on, as [process_pdf]
    calls them. *)
Definition chain_of (env : Env) (i o : string) (ss : list Strategy) : list (M bool) :=
  (fun s => strategy_fn env s i o "KYC Report" "PD Report") <$> ss.

Definition failed_attempts (ss : list Strategy) : list (Strategy * bool) :=
  (fun s => (s, false)) <$> ss.

(** *** Example documents *)

(** The occurrence search of the examples: the boxes of the spans that
    contain the needle. *)
Definition span_hits (page : Page) (needle : string) : list Rect :=
  span_bbox <$>
    filter (fun s => PyStr.contains needle (span_text s) = true)
           (all_spans (page_blocks page)).

(** A backend that knows the Helvetica family and a file system on which
    everything may be written. *)
Definition demo_env : Env :=
  {| font_resolves := fun f => bool_decide (f ∈ ["Helvetica-Bold"; "Helvetica"; "helv"]);
     text_bbox := fun p text font size =>
       mkRect (px p) (py p - size)
              (px p + size * inject_Z (Z.of_nat (String.length text)) / 2) (py p);
     search_for := span_hits;
     partly_erased := fun _ _ => [];
     mkdir_ok := fun _ => true;
     writable := fun _ => true;
     write_breaks := fun _ => false |}.

(** The same, with a backend that resolves no font at all. *)
Definition nofont_env : Env :=
  {| font_resolves := fun _ => false;
     text_bbox := text_bbox demo_env;
     search_for := span_hits;
     partly_erased := fun _ _ => [];
     mkdir_ok := fun _ => true;
     writable := fun _ => true;
     write_breaks := fun _ => false |}.

(** The span of the concrete scenario. *)
Definition title_span : Span :=
  {| span_text := "2024 KYC Report - Confidential"; span_font := "Helvetica-Bold";
     span_size := 14; span_bbox := mkRect 50 700 300 715;
     span_origin := mkPoint 50 712; span_color := Some (PyInt 0) |}.

Definition title_page : Page :=
  {| page_width := 612; page_height := 792;
     page_blocks := [TextBlock [[title_span]]]; page_drawings := [] |}.

Definition body_span (text : string) (color : option PyValue) : Span :=
  {| span_text := text; span_font := "Helvetica"; span_size := 11;
     span_bbox := mkRect 50 100 400 112; span_origin := mkPoint 50 110;
     span_color := color |}.

Definition plain_page : Page :=
  {| page_width := 612; page_height := 792;
     page_blocks := [TextBlock [[body_span "Quarterly summary" (Some (PyInt 0))]]];
     page_drawings := [] |}.

Definition title_doc : Document := {| pages := [title_page; plain_page] |}.

Definition plain_doc : Document := {| pages := [plain_page; plain_page] |}.

Definition title_fs : gmap string Document := {[ "in.pdf" := title_doc ]}.

Definition plain_fs : gmap string Document := {[ "in.pdf" := plain_doc ]}.

(** A backend on which every write raises after the destination was opened
    for writing, and a file system that holds the output of an earlier
    run. *)
Definition breaking_env : Env :=
  {| font_resolves := font_resolves demo_env;
     text_bbox := text_bbox demo_env;
     search_for := span_hits;
     partly_erased := fun _ _ => [];
     mkdir_ok := fun _ => true;
     writable := fun _ => false;
     write_breaks := fun _ => true |}.

Definition stale_fs : gmap string Document :=
  <["out.pdf" := plain_doc]> title_fs.

(** Page 0 of the scenario after the clean strategy: the old span is still
    there, a white rectangle lies over it, and the new text is drawn in the
    accent colour. *)
Definition clean_title_page (env : Env) : Page :=
  {| page_width := 612; page_height := 792;
     page_blocks :=
       [TextBlock [[title_span]];
        TextBlock [[ {| span_text := "PD Report"; span_font := "Helvetica-Bold";
                       span_size := 14;
                       span_bbox := text_bbox env (mkPoint 50 710) "PD Report"
                                      "Helvetica-Bold" 14;
                       span_origin := mkPoint 50 710;
                       span_color := Some (PySeq [0 # 255; 102 # 255; 204 # 255]) |} ]]];
     page_drawings := [FilledRect (mkRect 47 697 303 718) white white] |}.

(** A page with the target, a blank span and a span in one-component grey. *)
Definition mixed_blocks : list Block :=
  [TextBlock [[body_span "KYC Report" (Some (PyInt 0));
               body_span "   " (Some (PyInt 0))];
              [body_span "Footer" (Some (PySeq [1 # 2]))]]].

(** The method names [process_pdf] recognises. *)
Definition recognized (method : string) : bool :=
  bool_decide (method ∈ method_name <$> default_order).

(** What a loop over some source spans adds to the new page. *)
Definition appends (old_text new_text : string) (src : list Span)
    (m : Page → M Page) : Prop :=
  ∀ np np' fs fs1 t,
    m np fs = (inr np', fs1, t) →
    ∃ out,
      page_blocks np' = page_blocks np ++ (drawn_block <$> out) ∧
      Forall2 (re_emitted old_text new_text)
        (filter (fun s => emitted old_text new_text s = true) src) out ∧
      page_drawings np' = page_drawings np ∧
      page_width np' = page_width np ∧ page_height np' = page_height np ∧
      fs1 = fs ∧ t = [].

(** ** Directory processing *)

(** [dir / name] *)
Definition path_join (dir name : string) : string := dir +:+ "/" +:+ name.

(** [path.name]: the last component of a path. *)
Fixpoint path_name (p : string) : string :=
  match p with
  | EmptyString => EmptyString
  | String c rest =>
      if PyStr.contains "/" rest then path_name rest
      else if Ascii.eqb c "/" then rest else p
  end.

(** Does [s] end in [suffix]? *)
Fixpoint ends_with (suffix s : string) : bool :=
  String.eqb suffix s ||
  match s with
  | EmptyString => false
  | String _ rest => ends_with suffix rest
  end.

(** The directory tree a run finds: which paths exist, which of them are
    directories, the names a directory lists, and where a directory can be
    created. *)
Record Tree := mkTree {
  node_exists : string -> bool;
  node_is_dir : string -> bool;
  dir_entries : string -> list string;
  can_mkdir : string -> bool
}.

(** [directory.glob("*.pdf")]: the entries of the directory whose name ends
    in [.pdf] (the match is case sensitive, and not recursive). *)
Definition glob_pdf (tree : Tree) (directory : string) : list string :=
  path_join directory <$>
    filter (fun name => ends_with ".pdf" name = true) (dir_entries tree directory).

(** [find_pdf_files]; [NotADirectoryError] is an [OSError]. *)
Definition find_pdf_files (tree : Tree) (directory : string) : M (list string) :=
  if negb (node_exists tree directory) then raise FileNotFoundError
  else if negb (node_is_dir tree directory) then raise OSError
  else ret (glob_pdf tree directory).

(** One round of the loop of [process_directory] over the files. *)
Definition process_file (env : Env) (output_dir method : string)
    (counters : nat * nat) (pdf_file : string) : M (nat * nat) :=
  let '(successful, failed) := counters in
  let output_file := path_join output_dir (path_name pdf_file) in
  let! ok := process_pdf env pdf_file output_file method in
  if ok then ret (S successful, failed) else ret (successful, S failed).

(** [process_directory].  The function returns nothing; the model returns
    the two counters of its closing log line, and [None] when it leaves early
    because there is no PDF file. *)
Definition process_directory (env : Env) (tree : Tree) (input_dir : string)
    (output_dir : option string) (method : string) : M (option (nat * nat)) :=
  let output_dir :=
    match output_dir with
    | None => path_join input_dir "processed"
    | Some dir => dir
    end in
  let! pdf_files := find_pdf_files tree input_dir in
  match pdf_files with
  | [] => ret None
  | _ =>
      run! (if can_mkdir tree output_dir then ret tt else raise OSError) in
      let! counters := foldM (process_file env output_dir method) (0%nat, 0%nat) pdf_files in
      ret (Some counters)
  end.

(** *** Vocabulary of the further statements *)

(** The spans of a page, in reading order. *)
Definition page_spans (page : Page) : list Span := all_spans (page_blocks page).

(** The text drawn by an in-place strategy. *)
Definition drawn_span (env : Env) (target : Span) (point : Point) (new_text : string) : Span :=
  {| span_text := new_text; span_font := span_font target;
     span_size := span_size target;
     span_bbox := text_bbox env point new_text (span_font target) (span_size target);
     span_origin := point;
     span_color := Some (PySeq [0 # 255; 102 # 255; 204 # 255]) |}.

(** A box grown by [m] on every side. *)
Definition expand (m : Q) (r : Rect) : Rect :=
  mkRect (x0 r - m) (y0 r - m) (x1 r + m) (y1 r + m).


(** [n] number signs. *)
Fixpoint hashes (n : nat) : string :=
  match n with O => EmptyString | S k => String "#" (hashes k) end.

(** Does a colour value count as a number ([int] or [float])? *)
Definition is_number (c : option PyValue) : bool :=
  match c with
  | Some (PyInt _) | Some (PyFloat _) => true
  | _ => false
  end.

(** The strategies that edit page 0 in place, and their plans. *)
Definition in_place (s : Strategy) : bool :=
  match s with
  | Clean | Minimal | Overlay | Standard => true
  | _ => false
  end.

Definition plan_of (env : Env) (s : Strategy) (old_text new_text : string) :
    Page → M (option Page) :=
  match s with
  | Clean => clean_plan env old_text new_text
  | Minimal => minimal_plan env old_text new_text
  | Overlay => overlay_plan env old_text new_text
  | _ => standard_plan env old_text new_text
  end.


(** A page after [insert_text] has drawn [span] on it. *)
Definition with_drawn (page : Page) (span : Span) : Page :=
  {| page_width := page_width page; page_height := page_height page;
     page_blocks := page_blocks page ++ [drawn_block span];
     page_drawings := page_drawings page |}.


(** The text-replacing strategies of the default order from a given one on. *)
Definition replacing_from (s : Strategy) : list Strategy :=
  filter (fun s' => s' ≠ Simple) (drop (rank s) default_order).

(** The output directory [process_directory] works with. *)
Definition resolved_output_dir (input_dir : string) (output_dir : option string) : string :=
  match output_dir with
  | None => path_join input_dir "processed"
  | Some dir => dir
  end.

(** The names of a directory that [glob("*.pdf")] selects. *)
Definition pdf_names (tree : Tree) (directory : string) : list string :=
  filter (fun name => ends_with ".pdf" name = true) (dir_entries tree directory).

(** *** An example directory *)

(** A directory [PD] with two PDF files, a text file and a file whose
    extension is in upper case. *)
Definition demo_tree : Tree :=
  {| node_exists := fun path => String.eqb path "PD";
     node_is_dir := fun path => String.eqb path "PD";
     dir_entries := fun path =>
       if String.eqb path "PD" then ["a.pdf"; "notes.txt"; "B.PDF"; "b.pdf"] else [];
     can_mkdir := fun _ => true |}.

Definition demo_dir_fs : gmap string Document :=
  {[ "PD/a.pdf" := title_doc; "PD/b.pdf" := plain_doc ]}.

(** Can the copy loop draw this span?  A span it skips is no obstacle; one it
    draws needs a font the backend resolves and, when it keeps the colour of
    the span, colour components between 0 and 1. *)
Definition drawable (env : Env) (old_text new_text : string) (s : Span) : bool :=
  negb (emitted old_text new_text s) ||
  (font_resolves env (span_font s) &&
   (PyStr.contains new_text (copied_text old_text new_text s) ||
    color_ok (normalize_color (span_color s)))).

(** A loop body whose success is decided by [ok], whatever the page. *)
Definition decided_by {B} (ok : B → bool) (body : Page → B → M Page) : Prop :=
  ∀ np x fs,
    if ok x then ∃ np', body np x fs = (inr np', fs, [])
    else ∃ e, body np x fs = (inl e, fs, []).

(** * Theorems *)

(** ** Colour conversion *)

Lemma is_hex_cases (c : ascii) :
  PyStr.is_hex c = true →
  c ∈ ["0"; "1"; "2"; "3"; "4"; "5"; "6"; "7"; "8"; "9";
       "a"; "b"; "c"; "d"; "e"; "f"; "A"; "B"; "C"; "D"; "E"; "F"]%char.
Proof.
  destruct c as [[] [] [] [] [] [] [] []]; vm_compute; intros H;
    try discriminate H; clear H;
    repeat (first [ apply list_elem_of_here | apply list_elem_of_further ]).
Qed.

Lemma int16_two_hex (a b : ascii) :
  PyStr.is_hex a = true → PyStr.is_hex b = true →
  ∃ n, PyStr.int16 (String a (String b "")) = Some n ∧ 0 <= n <= 255.
Proof.
  intros Ha%is_hex_cases Hb%is_hex_cases.
  repeat (apply elem_of_cons in Ha as [-> | Ha]);
    try (by apply elem_of_nil in Ha);
    repeat (apply elem_of_cons in Hb as [-> | Hb]);
    try (by apply elem_of_nil in Hb);
    (eexists; split; [vm_compute; reflexivity | lia]).
Qed.

Lemma byte_fraction_bounds (n : Z) :
  0 <= n <= 255 → (0 <= inject_Z n / 255 ∧ inject_Z n / 255 <= 1)%Q.
Proof.
  intros Hn. unfold Qle, Qdiv, Qmult, Qinv, inject_Z; simpl. lia.
Qed.

Lemma lstrip_hash_hex (c : ascii) (s : string) :
  PyStr.is_hex c = true → PyStr.lstrip_char "#" (String c s) = String c s.
Proof.
  intros H%is_hex_cases.
  repeat (apply elem_of_cons in H as [-> | H]); try (by apply elem_of_nil in H);
    reflexivity.
Qed.

(** C10: on six hexadecimal digits, with or without a leading [#],
    [hex_to_rgb] returns three components, each the exact rational [n/255]
    of a byte [n] and hence in [0,1]; ["#0066cc"] gives
    [(0, 102/255, 204/255)]. *)
Theorem hex_to_rgb_six_digits (s : string) :
  String.length s = 6%nat → PyStr.all_hex s = true →
  (∀ h, h = s ∨ h = String "#" s →
     ∃ r g b, hex_to_rgb h = Some (r, g, b) ∧
       byte_fraction r ∧ byte_fraction g ∧ byte_fraction b ∧
       (0 <= r ∧ r <= 1)%Q ∧ (0 <= g ∧ g <= 1)%Q ∧ (0 <= b ∧ b <= 1)%Q) ∧
  (∃ r g b, hex_to_rgb "#0066cc" = Some (r, g, b) ∧
     (r == 0)%Q ∧ (g == 102 / 255)%Q ∧ (b == 204 / 255)%Q).
Proof.
  intros Hlen Hhex. split.
  - destruct s as [|c1 [|c2 [|c3 [|c4 [|c5 [|c6 [|] ] ] ] ] ] ]; try discriminate Hlen.
    simpl in Hhex.
    repeat (apply andb_prop in Hhex as [? Hhex]).
    assert (Hdirect : ∃ r g b,
      hex_to_rgb (String c1 (String c2 (String c3 (String c4 (String c5 (String c6 "")))))) = Some (r, g, b) ∧
      byte_fraction r ∧ byte_fraction g ∧ byte_fraction b).
    { unfold hex_to_rgb. rewrite lstrip_hash_hex by done.
      destruct (int16_two_hex c1 c2) as (n1 & E1 & B1); [done..|].
      destruct (int16_two_hex c3 c4) as (n2 & E2 & B2); [done..|].
      destruct (int16_two_hex c5 c6) as (n3 & E3 & B3); [done..|].
      unfold PyStr.slice; cbn [String.substring].
      rewrite E1, E2, E3. cbn.
      do 3 eexists. split; [reflexivity|].
      repeat split; eexists; (split; [|reflexivity]); lia. }
    intros h [-> | ->].
    + destruct Hdirect as (r & g & b & E & Hr & Hg & Hb).
      exists r, g, b. split; [exact E|].
      destruct Hr as (nr & ? & ->), Hg as (ng & ? & ->), Hb as (nb & ? & ->).
      repeat split; try (eexists; split; [|reflexivity]; lia);
        by apply byte_fraction_bounds.
    + destruct Hdirect as (r & g & b & E & Hr & Hg & Hb).
      exists r, g, b. split.
      { unfold hex_to_rgb in *. cbn [PyStr.lstrip_char Ascii.eqb Bool.eqb].
        cbn [PyStr.lstrip_char] in E. exact E. }
      destruct Hr as (nr & ? & ->), Hg as (ng & ? & ->), Hb as (nb & ? & ->).
      repeat split; try (eexists; split; [|reflexivity]; lia);
        by apply byte_fraction_bounds.
  - do 3 eexists. split; [vm_compute; reflexivity|]. repeat split; reflexivity.
Qed.

Lemma hex_to_rgb_six_digits_witness :
  (∀ h, h = "0066cc" ∨ h = String "#" "0066cc" →
     ∃ r g b, hex_to_rgb h = Some (r, g, b) ∧
       byte_fraction r ∧ byte_fraction g ∧ byte_fraction b ∧
       (0 <= r ∧ r <= 1)%Q ∧ (0 <= g ∧ g <= 1)%Q ∧ (0 <= b ∧ b <= 1)%Q) ∧
  (∃ r g b, hex_to_rgb "#0066cc" = Some (r, g, b) ∧
     (r == 0)%Q ∧ (g == 102 / 255)%Q ∧ (b == 204 / 255)%Q).
Proof. apply (hex_to_rgb_six_digits "0066cc"); reflexivity. Defined.

(** ** The monad *)

Lemma pure_ret {A} (a : A) : pure_M (ret a).
Proof. by exists (inr a). Qed.

Lemma pure_raise {A} (e : Exn) : pure_M (@raise A e).
Proof. by exists (inl e). Qed.

Lemma pure_lift_option {A} (e : Exn) (o : option A) : pure_M (lift_option e o).
Proof. destruct o; [apply pure_ret | apply pure_raise]. Qed.

Lemma pure_bind {A B} (m : M A) (k : A → M B) :
  pure_M m → (∀ a, pure_M (k a)) → pure_M (bindM m k).
Proof.
  intros [[e|a] Hm] Hk.
  - exists (inl e). intros fs. unfold bindM. by rewrite Hm.
  - destruct (Hk a) as [r Hr]. exists r. intros fs.
    unfold bindM. by rewrite Hm, Hr.
Qed.

Lemma pure_foldM {A B} (body : A → B → M A) (xs : list B) :
  (∀ a b, pure_M (body a b)) → ∀ acc, pure_M (foldM body acc xs).
Proof.
  intros Hbody. induction xs as [|x xs IH]; intros acc; simpl.
  - apply pure_ret.
  - apply pure_bind; [apply Hbody | intros a; apply IH].
Qed.

Lemma pure_inv {A} (m : M A) fs r fs' t :
  pure_M m → m fs = (r, fs', t) → fs' = fs ∧ t = [].
Proof. intros [r0 Hm]. rewrite Hm. by intros [= _ <- <-]. Qed.

Lemma bindM_inv {A B} (m : M A) (k : A → M B) fs r fs' t :
  bindM m k fs = (r, fs', t) →
  (∃ e, m fs = (inl e, fs', t) ∧ r = inl e) ∨
  (∃ a fs1 t1 t2, m fs = (inr a, fs1, t1) ∧ k a fs1 = (r, fs', t2) ∧ t = t1 ++ t2).
Proof.
  unfold bindM. destruct (m fs) as [[[e|a] fs1] t1].
  - intros [= <- <- <-]. left. by exists e.
  - destruct (k a fs1) as [[r2 fs2] t2] eqn:Hk. intros [= <- <- <-].
    right. by exists a, fs1, t1, t2.
Qed.

Lemma guarded_spec (s : Strategy) (body : M bool) fs r fs' t :
  body fs = (r, fs', t) →
  guarded s body fs = (inr (absorbed r), fs', EvCall s :: t ++ [EvReturn s (absorbed r)]).
Proof.
  intros H. unfold guarded, bindM, try_except, emit, ret. rewrite H.
  destruct r as [e|b]; simpl; by rewrite ?app_nil_r.
Qed.

Lemma attempts_app t1 t2 : attempts (t1 ++ t2) = attempts t1 ++ attempts t2.
Proof. unfold attempts. apply omap_app. Qed.

Lemma writes_app t1 t2 : writes (t1 ++ t2) = writes t1 ++ writes t2.
Proof. unfold writes. apply omap_app. Qed.

Lemma opens_app t1 t2 : opens (t1 ++ t2) = opens t1 ++ opens t2.
Proof. unfold opens. apply omap_app. Qed.

(** ** Primitives *)

Section PrimitiveFacts.

Context (env : Env).

Lemma open_document_inv p fs r fs' t :
  open_document p fs = (r, fs', t) →
  fs' = fs ∧ t = [EvOpen p] ∧
  r = match fs !! p with Some d => inr d | None => inl FileNotFoundError end.
Proof.
  unfold open_document, bindM, emit, lift_option, ret, raise.
  destruct (fs !! p); by intros [= <- <- <-].
Qed.

Lemma mkdir_parent_inv o fs r fs' t :
  mkdir_parent env o fs = (r, fs', t) →
  fs' = fs ∧ t = [EvMkdir o] ∧
  r = if mkdir_ok env o then inr tt else inl OSError.
Proof.
  unfold mkdir_parent, bindM, emit, ret, raise.
  destruct (mkdir_ok env o); by intros [= <- <- <-].
Qed.

Lemma pure_doc_getitem d n : pure_M (doc_getitem d n).
Proof. apply pure_lift_option. Qed.

Lemma pure_accent_color : pure_M accent_color.
Proof.
  apply pure_bind; [apply pure_lift_option | intros; apply pure_ret].
Qed.

Lemma pure_insert_text page point text fontsize fontname color :
  pure_M (insert_text env page point text fontsize fontname color).
Proof.
  unfold insert_text.
  repeat case_match; first [apply pure_ret | apply pure_raise].
Qed.

Lemma pure_copy_span old_text new_text np span :
  pure_M (copy_span env old_text new_text np span).
Proof.
  unfold copy_span. destruct (PyStr.truthy _); [|apply pure_ret].
  apply pure_bind; [|intros; apply pure_insert_text].
  destruct (PyStr.contains new_text _); [apply pure_accent_color | apply pure_ret].
Qed.

Lemma pure_copy_blocks old_text new_text np blocks :
  pure_M (copy_blocks env old_text new_text np blocks).
Proof.
  apply pure_foldM. intros a [lines|]; simpl; [|apply pure_ret].
  apply pure_foldM. intros a' line. apply pure_foldM.
  intros; apply pure_copy_span.
Qed.

Lemma pure_replace_instance target new_text page rect :
  pure_M (replace_instance env target new_text page rect).
Proof.
  apply pure_bind; [apply pure_accent_color | intros; apply pure_insert_text].
Qed.

Lemma insert_page_of_page doc pno p fs :
  insert_page env doc pno (ArgPage p) fs = (inl AttributeError, fs, []).
Proof. reflexivity. Qed.

End PrimitiveFacts.

(** ** Strategies that edit page 0 in place *)

Lemma same_tail_set_page0 d p : same_tail d (set_page0 d p).
Proof.
  split; simpl.
  - apply length_insert.
  - intros n Hn. apply list_lookup_insert_ne. lia.
Qed.

Lemma transactional_ext env guard i o (m1 m2 : M bool) :
  (∀ fs, m1 fs = m2 fs) → transactional env guard i o m2 →
  transactional env guard i o m1.
Proof.
  intros Heq H fs. destruct (H fs) as (r & eff & t & Hrun & Heff).
  exists r, eff, t. split.
  - intros fs2 H2. rewrite Heq. by apply Hrun.
  - destruct eff as [| |d']; [done..|].
    destruct Heff as (? & ? & ? & d & ? & ? & NI). do 3 (split; [done|]).
    exists d. do 2 (split; [done|]).
    intros fs2 d2 ? ?. destruct (NI fs2 d2) as (d2' & ? & ?); [done..|].
    exists d2'. by rewrite Heq.
Qed.

Section BodyFacts.

Context (env : Env).

Lemma page_strategy_run plan i o fs d p rp :
  fs !! i = Some d → pages d !! 0%nat = Some p → plan p fs = (rp, fs, []) →
  page_strategy env plan i o fs =
    match rp with
    | inl e => (inl e, fs, [EvOpen i])
    | inr None => (inr false, fs, [EvOpen i])
    | inr (Some p') =>
        if mkdir_ok env o then
          if String.eqb o i then (inl ValueError, fs, [EvOpen i; EvMkdir o])
          else if writable env o
               then (inr true, <[o := set_page0 d p']> fs,
                     [EvOpen i; EvMkdir o; EvWrite o])
               else if write_breaks env o
               then (inl OSError, delete o fs,
                     [EvOpen i; EvMkdir o; EvWrite o])
               else (inl OSError, fs, [EvOpen i; EvMkdir o])
        else (inl OSError, fs, [EvOpen i; EvMkdir o])
    end.
Proof.
  intros Hd Hp Hplan.
  unfold page_strategy, open_document, doc_getitem, mkdir_parent, doc_save,
    write_file, bindM, emit, lift_option, ret, raise.
  rewrite Hd; simpl. rewrite Hp; simpl. rewrite Hplan.
  destruct rp as [e|[p'|] ]; simpl; [done| |done].
  destruct (mkdir_ok env o); simpl; [|done].
  destruct (String.eqb o i); simpl; [done|].
  destruct (writable env o); simpl; [done|].
  by destruct (write_breaks env o).
Qed.

Lemma page_strategy_unreadable plan i o fs :
  fs !! i = None →
  page_strategy env plan i o fs = (inl FileNotFoundError, fs, [EvOpen i]).
Proof.
  intros Hd. unfold page_strategy, open_document, bindM, emit, lift_option, raise.
  by rewrite Hd.
Qed.

Lemma page_strategy_no_page plan i o fs d :
  fs !! i = Some d → pages d !! 0%nat = None →
  page_strategy env plan i o fs = (inl IndexError, fs, [EvOpen i]).
Proof.
  intros Hd Hp.
  unfold page_strategy, open_document, doc_getitem, bindM, emit, lift_option,
    ret, raise.
  rewrite Hd; simpl. by rewrite Hp.
Qed.

Lemma page_strategy_transactional plan i o :
  (∀ p, pure_M (plan p)) →
  transactional env (o ≠ i) i o (page_strategy env plan i o).
Proof.
  intros Hpure fs.
  destruct (fs !! i) as [d|] eqn:Hd.
  2: { exists (inl FileNotFoundError), Keep, [EvOpen i]. split.
       - intros fs2 H2. by apply page_strategy_unreadable.
       - split; [done|by left]. }
  destruct (pages d !! 0%nat) as [p|] eqn:Hp.
  2: { exists (inl IndexError), Keep, [EvOpen i]. split.
       - intros fs2 H2. by apply (page_strategy_no_page _ _ _ _ d).
       - split; [done|by left]. }
  destruct (Hpure p) as [rp Hplan].
  assert (Hrun : ∀ fs2 d2, fs2 !! i = Some d2 → pages d2 !! 0%nat = Some p →
            page_strategy env plan i o fs2 = _)
    by (intros fs2 d2 H2 Hp2; exact (page_strategy_run plan i o fs2 d2 p rp H2 Hp2 (Hplan fs2))).
  destruct rp as [e|[p'|] ].
  - exists (inl e), Keep, [EvOpen i]. split; [|split; [done|by left] ].
    intros fs2 H2. by apply (Hrun fs2 d).
  - destruct (mkdir_ok env o) eqn:Hmk.
    2: { exists (inl OSError), Keep, [EvOpen i; EvMkdir o].
         split; [|split; [done|by right] ].
         intros fs2 H2. by apply (Hrun fs2 d). }
    destruct (String.eqb o i) eqn:Hoi.
    { exists (inl ValueError), Keep, [EvOpen i; EvMkdir o].
      split; [|split; [done|by right] ].
      intros fs2 H2. by apply (Hrun fs2 d). }
    destruct (writable env o) eqn:Hw.
    + exists (inr true), (Store (set_page0 d p')), [EvOpen i; EvMkdir o; EvWrite o].
      split; [intros fs2 H2; by apply (Hrun fs2 d)|].
      do 3 (split; [done|]). exists d. split; [done|]. split.
      * split; simpl; [apply length_insert|].
        intros n Hn. apply list_lookup_insert_ne. lia.
      * intros fs2 d2 Hd2 Hp2. exists (set_page0 d2 p'). split.
        { apply (Hrun fs2 d2); congruence. }
        rewrite Hp in Hp2. simpl.
        destruct (pages d2) as [|q qs]; [done|].
        by destruct (pages d) as [|q' qs'].
    + destruct (write_breaks env o) eqn:Hb.
      * exists (inl OSError), Drop, [EvOpen i; EvMkdir o; EvWrite o].
        split; [intros fs2 H2; by apply (Hrun fs2 d)|].
        split; [by eexists|]. do 3 (split; [done|]).
        by apply String.eqb_neq.
      * exists (inl OSError), Keep, [EvOpen i; EvMkdir o].
        split; [|split; [done|by right] ].
        intros fs2 H2. by apply (Hrun fs2 d).
  - exists (inr false), Keep, [EvOpen i]. split; [|split; [done|by left] ].
    intros fs2 H2. by apply (Hrun fs2 d).
Qed.

End BodyFacts.

Section Refinements.

Context (env : Env).

Lemma clean_body_shape i o old_text new_text fs :
  replace_text_clean_body env i o old_text new_text fs =
  page_strategy env (clean_plan env old_text new_text) i o fs.
Proof.
  unfold replace_text_clean_body, page_strategy, clean_plan, bindM, ret.
  cbv beta iota zeta. run_prim; [done|]. run_prim; [done|].
  destruct (find_target_span _ _); cbv beta iota; [|done].
  run_all.
Qed.

Lemma minimal_body_shape i o old_text new_text fs :
  replace_text_minimal_body env i o old_text new_text fs =
  page_strategy env (minimal_plan env old_text new_text) i o fs.
Proof.
  unfold replace_text_minimal_body, page_strategy, minimal_plan, bindM, ret.
  cbv beta iota zeta. run_prim; [done|]. run_prim; [done|].
  destruct (find_target_span _ _); cbv beta iota; [|done].
  run_all.
Qed.

Lemma overlay_body_shape i o old_text new_text fs :
  replace_text_overlay_body env i o old_text new_text fs =
  page_strategy env (overlay_plan env old_text new_text) i o fs.
Proof.
  unfold replace_text_overlay_body, page_strategy, overlay_plan, bindM, ret.
  cbv beta iota zeta. run_prim; [done|]. run_prim; [done|].
  destruct (find_target_span _ _); cbv beta iota; [|done].
  run_all.
Qed.

Lemma standard_body_shape i o old_text new_text fs :
  replace_text_in_pdf_body env i o old_text new_text fs =
  page_strategy env (standard_plan env old_text new_text) i o fs.
Proof.
  unfold replace_text_in_pdf_body, page_strategy, standard_plan, bindM, ret.
  cbv beta iota zeta. run_prim; [done|]. run_prim; [done|].
  destruct (find_target_span _ _); cbv beta iota; [|done].
  destruct (search_for _ _ _); cbv beta iota; [done|].
  run_all.
Qed.

Lemma pure_clean_plan old_text new_text p : pure_M (clean_plan env old_text new_text p).
Proof.
  unfold clean_plan. destruct (find_target_span _ _); [|apply pure_ret].
  repeat first [ apply pure_bind; [first [apply pure_accent_color | apply pure_insert_text]|intros]
               | apply pure_ret ].
Qed.

Lemma pure_minimal_plan old_text new_text p : pure_M (minimal_plan env old_text new_text p).
Proof.
  unfold minimal_plan. destruct (find_target_span _ _); [|apply pure_ret].
  repeat first [ apply pure_bind; [first [apply pure_accent_color | apply pure_insert_text]|intros]
               | apply pure_ret ].
Qed.

Lemma pure_overlay_plan old_text new_text p : pure_M (overlay_plan env old_text new_text p).
Proof.
  unfold overlay_plan. destruct (find_target_span _ _); [|apply pure_ret].
  repeat first [ apply pure_bind; [first [apply pure_accent_color | apply pure_insert_text]|intros]
               | apply pure_ret ].
Qed.

Lemma pure_standard_plan old_text new_text p : pure_M (standard_plan env old_text new_text p).
Proof.
  unfold standard_plan. destruct (find_target_span _ _); [|apply pure_ret].
  destruct (search_for _ _ _); [apply pure_ret|].
  apply pure_bind; [|intros; apply pure_ret].
  apply pure_foldM. intros; apply pure_replace_instance.
Qed.

(** The page-rebuilding strategies hand the rebuilt page object to
    [insert_page] as its text: whenever they get that far they raise. *)
Lemma rebuild_body_never_true i o old_text new_text fs :
  ∃ r, replace_text_direct_body env i o old_text new_text fs = (r, fs, [EvOpen i]) ∧
       r ≠ inr true.
Proof.
  unfold replace_text_direct_body, open_document, doc_getitem, bindM, emit,
    lift_option, ret, raise.
  destruct (fs !! i) as [d|]; cbv beta iota zeta; [|by eexists].
  destruct (pages d !! 0%nat) as [p|]; cbv beta iota zeta; [|by eexists].
  destruct (find_target_span _ _); cbv beta iota zeta; [|by eexists].
  destruct (pure_copy_blocks env old_text new_text
              (blank_page (page_width p) (page_height p)) (get_text_blocks p))
    as [ [e|np] Hnp]; rewrite Hnp; cbv beta iota zeta; [by eexists|].
  unfold insert_page, raise. by eexists.
Qed.

Lemma rebuild_body_run i o old_text new_text (fs : gmap string Document) :
  ∃ r, r ≠ inr true ∧
    ∀ fs2, fs2 !! i = fs !! i →
      replace_text_direct_body env i o old_text new_text fs2 = (r, fs2, [EvOpen i]).
Proof.
  unfold replace_text_direct_body, open_document, doc_getitem, bindM, emit,
    lift_option, ret, raise.
  destruct (fs !! i) as [d|].
  2: { eexists. split; [|intros fs2 ->; reflexivity]. done. }
  destruct (pages d !! 0%nat) as [p|] eqn:Hp.
  2: { eexists. split; [|intros fs2 ->; cbv beta iota zeta; rewrite Hp; reflexivity].
       done. }
  destruct (find_target_span (get_text_blocks p) old_text) eqn:Hfind.
  2: { eexists. split; [|intros fs2 ->; cbv beta iota zeta; rewrite Hp;
                          cbv beta iota zeta; rewrite Hfind; reflexivity].
       done. }
  destruct (pure_copy_blocks env old_text new_text
              (blank_page (page_width p) (page_height p)) (get_text_blocks p))
    as [ [e|np] Hnp].
  - exists (inl e). split; [done|]. intros fs2 ->. cbv beta iota zeta.
    rewrite Hp. cbv beta iota zeta. rewrite Hfind, Hnp. reflexivity.
  - exists (inl AttributeError). split; [done|]. intros fs2 ->. cbv beta iota zeta.
    rewrite Hp. cbv beta iota zeta. rewrite Hfind, Hnp. reflexivity.
Qed.

Lemma precise_body_is_direct i o old_text new_text :
  replace_text_precise_body env i o old_text new_text =
  replace_text_direct_body env i o old_text new_text.
Proof. reflexivity. Qed.

Lemma simple_body_run i o fs d :
  fs !! i = Some d →
  process_pdf_simple_body env i o fs =
    if mkdir_ok env o then
      if writable env o
      then (inr true, <[o := {| pages := imap (simple_page env) (pages d) |}]> fs,
            [EvOpen i; EvMkdir o; EvWrite o])
      else if write_breaks env o
      then (inl OSError, delete o fs, [EvOpen i; EvMkdir o; EvWrite o])
      else (inl OSError, fs, [EvOpen i; EvMkdir o])
    else (inl OSError, fs, [EvOpen i; EvMkdir o]).
Proof.
  intros Hd.
  unfold process_pdf_simple_body, open_document, mkdir_parent, write_file,
    bindM, emit, lift_option, ret, raise.
  rewrite Hd; cbv beta iota zeta.
  destruct (mkdir_ok env o); cbv beta iota zeta; [|done].
  destruct (writable env o); cbv beta iota zeta; [done|].
  by destruct (write_breaks env o).
Qed.

Lemma simple_body_unreadable i o fs :
  fs !! i = None →
  process_pdf_simple_body env i o fs = (inl FileNotFoundError, fs, [EvOpen i]).
Proof.
  intros Hd.
  unfold process_pdf_simple_body, open_document, bindM, emit, lift_option, raise.
  by rewrite Hd.
Qed.

Lemma simple_body_transactional i o :
  transactional env True i o (process_pdf_simple_body env i o).
Proof.
  intros fs.
  destruct (fs !! i) as [d|] eqn:Hd.
  2: { exists (inl FileNotFoundError), Keep, [EvOpen i]. split.
       - intros fs2 H2. by apply simple_body_unreadable.
       - split; [done|by left]. }
  assert (Hrun : ∀ fs2 d2, fs2 !! i = Some d2 → process_pdf_simple_body env i o fs2 = _)
    by (intros fs2 d2 H2; exact (simple_body_run i o fs2 d2 H2)).
  destruct (mkdir_ok env o) eqn:Hmk.
  2: { exists (inl OSError), Keep, [EvOpen i; EvMkdir o].
       split; [|split; [done|by right] ].
       intros fs2 H2. by apply (Hrun fs2 d). }
  destruct (writable env o) eqn:Hw.
  - exists (inr true), (Store {| pages := imap (simple_page env) (pages d) |}),
      [EvOpen i; EvMkdir o; EvWrite o].
    split; [intros fs2 H2; by apply (Hrun fs2 d)|].
    do 3 (split; [done|]). exists d. split; [done|]. split.
    + split; simpl; [apply length_imap|].
      intros n Hn. rewrite list_lookup_imap.
      destruct (pages d !! n); [|done]. destruct n; [lia|done].
    + intros fs2 d2 Hd2 Hp2. exists {| pages := imap (simple_page env) (pages d2) |}.
      split; [by apply (Hrun fs2 d2)|].
      simpl. by rewrite !list_lookup_imap, Hp2.
  - destruct (write_breaks env o) eqn:Hb.
    + exists (inl OSError), Drop, [EvOpen i; EvMkdir o; EvWrite o].
      split; [intros fs2 H2; by apply (Hrun fs2 d)|].
      split; [by eexists|]. done.
    + exists (inl OSError), Keep, [EvOpen i; EvMkdir o].
      split; [|split; [done|by right] ].
      intros fs2 H2. by apply (Hrun fs2 d).
Qed.

Lemma strategy_body_transactional s i o old_text new_text :
  transactional env (s ≠ Simple → o ≠ i) i o
    (strategy_body env s i o old_text new_text).
Proof.
  assert (Hweak : ∀ m, transactional env (o ≠ i) i o m →
                       transactional env (s ≠ Simple → o ≠ i) i o m).
  { intros m H fs. destruct (H fs) as (r & eff & t & Hrun & Heff).
    exists r, eff, t. split; [done|]. destruct eff; [done| |done].
    destruct Heff as (? & ? & ? & ? & ?). done. }
  assert (Hrebuild : transactional env (s ≠ Simple → o ≠ i) i o
                       (replace_text_direct_body env i o old_text new_text)).
  { intros fs. destruct (rebuild_body_run i o old_text new_text fs) as (r & Hr & Hrun).
    exists r, Keep, [EvOpen i]. split; [done|]. split; [done|by left]. }
  destruct s; simpl.
  - apply Hweak. eapply transactional_ext; [apply clean_body_shape|].
    apply page_strategy_transactional, pure_clean_plan.
  - apply Hweak. eapply transactional_ext; [apply minimal_body_shape|].
    apply page_strategy_transactional, pure_minimal_plan.
  - exact Hrebuild.
  - apply Hweak. eapply transactional_ext; [apply overlay_body_shape|].
    apply page_strategy_transactional, pure_overlay_plan.
  - exact Hrebuild.
  - apply Hweak. eapply transactional_ext; [apply standard_body_shape|].
    apply page_strategy_transactional, pure_standard_plan.
  - intros fs. destruct (simple_body_transactional i o fs) as (r & eff & t & Hrun & Heff).
    exists r, eff, t. split; [done|]. destruct eff; [done| |done].
    destruct Heff as (? & ? & ? & ? & ?). done.
Qed.

Lemma strategy_fn_guarded s i o old_text new_text fs :
  strategy_fn env s i o old_text new_text fs =
  guarded s (strategy_body env s i o old_text new_text) fs.
Proof. by destruct s. Qed.

End Refinements.

(** ** Strategy functions and the fallback chain *)

Section ChainFacts.

Context (env : Env).

(** One strategy function: its verdict and events are determined by what the
    input path holds, and so is what it does to the file system. *)
Lemma strategy_fn_run s i o old_text new_text (fs : gmap string Document) :
  ∃ ok eff t,
    (∀ fs2 : gmap string Document, fs2 !! i = fs !! i →
       strategy_fn env s i o old_text new_text fs2
       = (inr ok, apply_effect o eff fs2, t)) ∧
    attempts t = [(s, ok)] ∧ opens t = [i] ∧
    match eff with
    | Keep => ok = false ∧ writes t = []
    | Drop => ok = false ∧ writes t = [o] ∧
              writable env o = false ∧ write_breaks env o = true ∧
              (s ≠ Simple → o ≠ i)
    | Store d' =>
        ok = true ∧ writes t = [o] ∧ writable env o = true ∧
        ∃ d, fs !! i = Some d ∧ same_tail d d' ∧
          ∀ fs2 d2, fs2 !! i = Some d2 → pages d2 !! 0%nat = pages d !! 0%nat →
            ∃ d2', strategy_fn env s i o old_text new_text fs2
                   = (inr true, <[o := d2']> fs2, t) ∧
                   pages d2' !! 0%nat = pages d' !! 0%nat
    end.
Proof.
  setoid_rewrite strategy_fn_guarded.
  destruct (strategy_body_transactional env s i o old_text new_text fs)
    as (r & eff & t & Hrun & Heff).
  exists (absorbed r), eff, (EvCall s :: t ++ [EvReturn s (absorbed r)]).
  split.
  { intros fs2 H2. apply guarded_spec. by apply Hrun. }
  destruct eff as [| |d'].
  - destruct Heff as (Hr & Ht).
    assert (absorbed r = false) as ->.
    { destruct r as [e|[|] ]; [done|congruence|done]. }
    by destruct Ht as [-> | ->].
  - destruct Heff as ([e ->] & -> & Hw & Hb & Hg). done.
  - destruct Heff as (-> & -> & Hw & d & Hd & Htail & NI).
    do 2 (split; [done|]). do 3 (split; [done|]).
    exists d. do 2 (split; [done|]).
    intros fs2 d2 Hd2 Hp2. destruct (NI fs2 d2 Hd2 Hp2) as (d2' & E2 & Hp).
    exists d2'. split; [|done].
    by rewrite ?strategy_fn_guarded, (guarded_spec _ _ _ _ _ _ E2).
Qed.

Lemma simple_at_end_tail s ss : simple_at_end (s :: ss) → simple_at_end ss.
Proof. intros H pre post ->. by apply (H (s :: pre) post). Qed.

Lemma simple_at_end_app ss1 ss2 : simple_at_end (ss1 ++ ss2) → simple_at_end ss2.
Proof. induction ss1 as [|s ss1 IH]; [done|]. intros H. by apply IH, (simple_at_end_tail s). Qed.

Lemma simple_at_end_order s : simple_at_end (drop (rank s) default_order).
Proof.
  intros pre post H.
  destruct s; simpl in H;
    repeat (destruct pre as [|? pre]; simplify_eq/=; try reflexivity).
Qed.

Lemma run_chain_cons i o s ss fs :
  run_chain (chain_of env i o (s :: ss)) fs =
  bindM (strategy_fn env s i o "KYC Report" "PD Report")
    (fun success => if success then ret true else run_chain (chain_of env i o ss)) fs.
Proof. reflexivity. Qed.

(** The chain: its verdict and events are determined by what the input path
    holds; it stops at the first strategy that returns [True]; every event
    is an event of one of the strategies it ran. *)
Lemma run_chain_run i o (ss : list Strategy) (fs0 : gmap string Document) :
  simple_at_end ss →
  ∃ b eff t failed,
    (∀ fs : gmap string Document, fs !! i = fs0 !! i →
       run_chain (chain_of env i o ss) fs = (inr b, apply_effect o eff fs, t)) ∧
    Forall (λ s, verdict_of env i o fs0 s = inr false) failed ∧
    ((b = false ∧ failed = ss ∧
      t = concat (trace_of env i o fs0 <$> failed) ∧
      attempts t = failed_attempts failed ∧
      ((eff = Keep ∧ writes t = []) ∨
       (eff = Drop ∧ writes t ≠ [] ∧
        writable env o = false ∧ write_breaks env o = true))) ∨
     (b = true ∧ ∃ s rest d', ss = failed ++ s :: rest ∧
        strategy_fn env s i o "KYC Report" "PD Report" fs0
          = (inr true, <[o := d']> fs0, trace_of env i o fs0 s) ∧
        t = concat (trace_of env i o fs0 <$> failed) ++ trace_of env i o fs0 s ∧
        attempts t = failed_attempts failed ++ [(s, true)] ∧
        eff = Store d' ∧ writable env o = true ∧ writes t = [o])).
Proof.
  induction ss as [|s ss IH]; intros Hend.
  - exists false, Keep, [], []. split; [done|]. split; [done|]. left.
    do 4 (split; [done|]). by left.
  - destruct (strategy_fn_run s i o "KYC Report" "PD Report" fs0)
      as (ok & eff1 & t1 & Hrun1 & Ha1 & _ & Heff1).
    assert (Htr : trace_of env i o fs0 s = t1).
    { unfold trace_of. by rewrite (Hrun1 fs0 eq_refl). }
    assert (Hv : verdict_of env i o fs0 s = inr ok).
    { unfold verdict_of. by rewrite (Hrun1 fs0 eq_refl). }
    destruct eff1 as [| |d'].
    + destruct Heff1 as (-> & Hw1).
      destruct (IH (simple_at_end_tail _ _ Hend))
        as (b & eff & t & failed & Hrun & Hfail & Hcases).
      exists b, eff, (t1 ++ t), (s :: failed). split; [|split].
      * intros fs Hfs. rewrite run_chain_cons. unfold bindM.
        rewrite (Hrun1 fs Hfs). simpl. by rewrite (Hrun fs Hfs).
      * by constructor.
      * rewrite attempts_app, writes_app, Ha1, Hw1. simpl. rewrite Htr.
        destruct Hcases as [(-> & -> & -> & Ha & He)|(-> & s' & rest & d' & -> & E & -> & Ha & He)].
        { left. do 3 (split; [done|]). split; [by rewrite Ha|]. done. }
        { right. split; [done|]. exists s', rest, d'.
          do 2 (split; [done|]). split; [by rewrite app_assoc|].
          split; [by rewrite Ha|]. done. }
    + destruct Heff1 as (-> & Hw1 & Hnw & Hbr & Hoi).
      destruct (decide (s = Simple)) as [->|Hs].
      * assert (ss = []) as -> by (by apply (Hend [] ss)).
        exists false, Drop, (t1 ++ []), [Simple]. split; [|split].
        { intros fs Hfs. rewrite run_chain_cons. unfold bindM.
          by rewrite (Hrun1 fs Hfs). }
        { by constructor. }
        left. rewrite app_nil_r. simpl. rewrite Htr, app_nil_r, Ha1, Hw1.
        do 4 (split; [done|]). by right.
      * specialize (Hoi Hs).
        destruct (IH (simple_at_end_tail _ _ Hend))
          as (b & eff & t & failed & Hrun & Hfail & Hcases).
        destruct Hcases as [(-> & -> & -> & Ha & He)|(-> & s' & rest & d' & -> & E & -> & Ha & -> & Hw & He)].
        2: { congruence. }
        exists false, Drop, (t1 ++ concat (trace_of env i o fs0 <$> ss)), (s :: ss).
        split; [|split].
        { intros fs Hfs. rewrite run_chain_cons. unfold bindM.
          rewrite (Hrun1 fs Hfs). simpl.
          rewrite (Hrun (delete o fs)) by (by rewrite lookup_delete_ne).
          destruct He as [(-> & _)|(-> & _)]; simpl; [done|].
          by rewrite delete_delete_eq. }
        { by constructor. }
        left. simpl. rewrite Htr, attempts_app, writes_app, Ha1, Hw1, Ha.
        do 4 (split; [done|]). by right.
    + destruct Heff1 as (-> & Hw1 & Hwr & d & Hd & Htail & NI).
      exists true, (Store d'), (t1 ++ []), []. split; [|split].
      { intros fs Hfs. rewrite run_chain_cons. unfold bindM.
          by rewrite (Hrun1 fs Hfs). }
      { constructor. }
      right. split; [done|]. exists s, ss, d'. rewrite app_nil_r, Htr. simpl.
      split; [done|]. split; [by apply (Hrun1 fs0)|].
      done.
Qed.

(** Strategies that fail on the input are run through: the chain goes on
    with the rest, from a file system that holds the same input. *)
Lemma run_chain_failed_prefix i o (ss1 ss2 : list Strategy) (fs0 : gmap string Document) :
  simple_at_end (ss1 ++ ss2) → ss2 ≠ [] →
  Forall (λ s, verdict_of env i o fs0 s = inr false) ss1 →
  ∃ fs1 : gmap string Document, fs1 !! i = fs0 !! i ∧
    run_chain (chain_of env i o (ss1 ++ ss2)) fs0 =
    (let '(r, fs', t) := run_chain (chain_of env i o ss2) fs1 in
     (r, fs', concat (trace_of env i o fs0 <$> ss1) ++ t)).
Proof.
  intros Hend Hne Hfail.
  cut (∀ fs : gmap string Document, fs !! i = fs0 !! i →
        ∃ fs1 : gmap string Document, fs1 !! i = fs0 !! i ∧
          run_chain (chain_of env i o (ss1 ++ ss2)) fs =
          (let '(r, fs', t) := run_chain (chain_of env i o ss2) fs1 in
           (r, fs', concat (trace_of env i o fs0 <$> ss1) ++ t))).
  { intros H. by apply H. }
  induction Hfail as [|s ss1 Hs Hfail IH]; intros fs Hfs.
  - exists fs. split; [done|]. simpl.
    by destruct (run_chain (chain_of env i o ss2) fs) as [ [r fs'] t].
  - destruct (strategy_fn_run s i o "KYC Report" "PD Report" fs0)
      as (ok & eff1 & t1 & Hrun1 & _ & _ & Heff1).
    assert (Htr : trace_of env i o fs0 s = t1).
    { unfold trace_of. by rewrite (Hrun1 fs0 eq_refl). }
    assert (ok = false) as ->.
    { unfold verdict_of in Hs. rewrite (Hrun1 fs0 eq_refl) in Hs. by simplify_eq/=. }
    assert (Hin : apply_effect o eff1 fs !! i = fs0 !! i).
    { destruct eff1 as [| |d']; simpl.
      - done.
      - destruct Heff1 as (_ & _ & _ & _ & Hoi).
        rewrite lookup_delete_ne; [done|]. apply Hoi. intros ->.
        assert (ss1 ++ ss2 = []) as Hnil by (by apply (Hend [] (ss1 ++ ss2))).
        apply app_eq_nil in Hnil as [_ ?]. done.
      - by destruct Heff1 as [? _]. }
    destruct (IH (simple_at_end_tail _ _ Hend) _ Hin) as (fs1 & Hfs1 & E).
    exists fs1. split; [done|].
    change ((s :: ss1) ++ ss2) with (s :: (ss1 ++ ss2)).
    rewrite run_chain_cons. unfold bindM. rewrite (Hrun1 fs Hfs). simpl.
    rewrite E, Htr.
    destruct (run_chain (chain_of env i o ss2) fs1) as [ [r fs'] t].
    by rewrite app_assoc.
Qed.

(** Whatever a chain writes, it writes to the output path. *)
Lemma run_chain_writes i o (ss : list Strategy) :
  ∀ (fs : gmap string Document) r fs' t,
    run_chain (chain_of env i o ss) fs = (r, fs', t) →
    ∀ path, path ∈ writes t → path = o.
Proof.
  induction ss as [|s ss IH]; intros fs r fs' t E path Hin.
  - injection E as <- <- <-. by apply elem_of_nil in Hin.
  - rewrite run_chain_cons in E. unfold bindM in E.
    destruct (strategy_fn_run s i o "KYC Report" "PD Report" fs)
      as (ok & eff & t1 & Hrun & _ & _ & Heff).
    rewrite (Hrun fs eq_refl) in E.
    assert (Hw1 : ∀ path, path ∈ writes t1 → path = o).
    { intros q Hq. destruct eff as [| |d'].
      - destruct Heff as (_ & Hw). rewrite Hw in Hq. by apply elem_of_nil in Hq.
      - destruct Heff as (_ & Hw & _). rewrite Hw in Hq.
        by apply list_elem_of_singleton in Hq.
      - destruct Heff as (_ & Hw & _). rewrite Hw in Hq.
        by apply list_elem_of_singleton in Hq. }
    destruct ok.
    + injection E as <- <- <-. rewrite app_nil_r in Hin. by apply Hw1.
    + destruct (run_chain (chain_of env i o ss) (apply_effect o eff fs))
        as [ [r2 fs2] t2] eqn:E2.
      injection E as <- <- <-. rewrite writes_app in Hin.
      apply elem_of_app in Hin as [Hin|Hin]; [by apply Hw1|].
      by apply (IH _ _ _ _ E2).
Qed.

Lemma bind_bool_id (m : M bool) fs :
  bindM m (fun success => if success then ret true else ret false) fs = m fs.
Proof.
  unfold bindM, ret. destruct (m fs) as [ [ [e|[|] ] fs1] t1]; by rewrite ?app_nil_r.
Qed.

Lemma bindM_ext {A B} (m : M A) (k1 k2 : A → M B) fs :
  (∀ a fs1, k1 a fs1 = k2 a fs1) → bindM m k1 fs = bindM m k2 fs.
Proof.
  intros Hk. unfold bindM. destruct (m fs) as [ [ [e|a] fs1] t1]; [done|].
  by rewrite Hk.
Qed.

(** Selecting a method enters the default chain at that strategy. *)
Lemma process_pdf_is_chain i o s fs :
  process_pdf env i o (method_name s) fs =
  run_chain (chain_of env i o (drop (rank s) default_order)) fs.
Proof.
  destruct s; unfold process_pdf, try_method; simpl;
    repeat (apply bindM_ext; intros [|] ?; [reflexivity|]);
    symmetry; apply bind_bool_id.
Qed.

Lemma process_pdf_unknown_method i o method fs :
  (∀ s, method ≠ method_name s) →
  process_pdf env i o method fs = (inr false, fs, []).
Proof.
  intros Hne. unfold process_pdf, try_method.
  pose proof (Hne Clean) as H1. pose proof (Hne Minimal) as H2.
  pose proof (Hne Direct) as H3. pose proof (Hne Overlay) as H4.
  pose proof (Hne Precise) as H5. pose proof (Hne Standard) as H6.
  pose proof (Hne Simple) as H7. simpl in *.
  apply String.eqb_neq in H1, H2, H3, H4, H5, H6, H7.
  by rewrite H1, H2, H3, H4, H5, H6, H7.
Qed.

(** The strategies after an entry of the order are the order entered
    there. *)
Lemma order_suffix s0 pre s post :
  drop (rank s0) default_order = pre ++ s :: post →
  s :: post = drop (rank s) default_order.
Proof.
  intros H.
  destruct s0; simpl in H;
    repeat (destruct pre as [|? pre]; simplify_eq/=; try reflexivity).
Qed.

End ChainFacts.

(** ** The pipeline *)

Section Pipeline.

Context (env : Env).

(** A run entered at strategy [s]: the strategies from [s] on, each as it
    behaves on the file system the run started from, up to the first that
    returns [True]. *)
Lemma process_pdf_from i o s (fs : gmap string Document) :
  ∃ b fs' t failed,
    process_pdf env i o (method_name s) fs = (inr b, fs', t) ∧
    Forall (λ s', verdict_of env i o fs s' = inr false) failed ∧
    ((b = false ∧ failed = drop (rank s) default_order ∧
      t = concat (trace_of env i o fs <$> failed) ∧
      attempts t = failed_attempts failed ∧
      ((fs' = fs ∧ writes t = []) ∨
       (fs' = delete o fs ∧ writes t ≠ [] ∧
        writable env o = false ∧ write_breaks env o = true))) ∨
     (b = true ∧ ∃ s' rest d', drop (rank s) default_order = failed ++ s' :: rest ∧
        strategy_fn env s' i o "KYC Report" "PD Report" fs
          = (inr true, fs', trace_of env i o fs s') ∧
        t = concat (trace_of env i o fs <$> failed) ++ trace_of env i o fs s' ∧
        attempts t = failed_attempts failed ++ [(s', true)] ∧
        fs' = <[o := d']> fs ∧ writable env o = true ∧ writes t = [o])).
Proof.
  destruct (run_chain_run env i o (drop (rank s) default_order) fs
              (simple_at_end_order s))
    as (b & eff & t & failed & Hrun & Hfail & Hcases).
  exists b, (apply_effect o eff fs), t, failed.
  rewrite process_pdf_is_chain. split; [by apply Hrun|]. split; [done|].
  destruct Hcases as [(-> & -> & -> & Ha & He)|(-> & s' & rest & d' & Hord & E & -> & Ha & -> & Hw & Hws)].
  - left. do 4 (split; [done|]).
    destruct He as [(-> & ?)|(-> & ? & ? & ?)]; [by left|by right].
  - right. split; [done|]. exists s', rest, d'. done.
Qed.

End Pipeline.

Lemma recognized_true method :
  recognized method = true → ∃ s, method = method_name s.
Proof.
  intros H%bool_decide_eq_true. apply list_elem_of_fmap in H as (s & -> & _).
  by exists s.
Qed.

Lemma recognized_false method :
  recognized method = false → ∀ s, method ≠ method_name s.
Proof.
  intros H%bool_decide_eq_false s ->. apply H.
  apply list_elem_of_fmap. exists s. split; [done|].
  destruct s; unfold default_order; set_solver.
Qed.

Lemma process_pdf_total env i o method fs :
  ∃ b fs' t, process_pdf env i o method fs = (inr b, fs', t).
Proof.
  destruct (recognized method) eqn:Hm.
  - apply recognized_true in Hm as [s ->].
    destruct (process_pdf_from env i o s fs) as (b & fs' & t & _ & E & _).
    by exists b, fs', t.
  - exists false, fs, []. by apply process_pdf_unknown_method, recognized_false.
Qed.

(** C1: with the default method the strategies are run in the order clean,
    minimal, direct, overlay, precise, standard, simple.  Every strategy
    before the stopping point is really called and returns [False] on the
    input; the run returns at the first strategy that returns [True], with
    the file system that strategy leaves, and runs nothing after it; the
    events of the run are exactly the events of the strategies it ran, in
    that order; after failed clean and minimal the next attempt is direct,
    with the verdict direct gives on the input. *)
Theorem process_pdf_default_order env i o fs :
  ∃ b fs' t failed,
    process_pdf env i o "clean" fs = (inr b, fs', t) ∧
    Forall (λ s, verdict_of env i o fs s = inr false) failed ∧
    ((b = false ∧ failed = default_order ∧
      attempts t = failed_attempts failed ∧
      t = concat (trace_of env i o fs <$> failed)) ∨
     (b = true ∧ ∃ s rest, default_order = failed ++ s :: rest ∧
        strategy_fn env s i o "KYC Report" "PD Report" fs
          = (inr true, fs', trace_of env i o fs s) ∧
        attempts t = failed_attempts failed ++ [(s, true)] ∧
        t = concat (trace_of env i o fs <$> failed) ++ trace_of env i o fs s)) ∧
    (∀ rest, attempts t = (Clean, false) :: (Minimal, false) :: rest →
       ∃ ok rest', rest = (Direct, ok) :: rest' ∧
                   verdict_of env i o fs Direct = inr ok).
Proof.
  destruct (process_pdf_from env i o Clean fs) as (b & fs' & t & failed & E & Hfail & H).
  exists b, fs', t, failed. split; [exact E|]. split; [exact Hfail|].
  change (drop (rank Clean) default_order) with default_order in H. split.
  - destruct H as [(-> & -> & -> & Ha & _)|(-> & s & rest & d' & Hord & Es & -> & Ha & _)].
    + by left.
    + right. split; [done|]. by exists s, rest.
  - intros rest Hrest.
    destruct H as [(-> & -> & _ & Ha & _)|(-> & s & rest0 & d' & Hord & Es & _ & Ha & _)].
    + rewrite Ha in Hrest. injection Hrest as <-.
      eexists _, _. split; [reflexivity|].
      exact (Forall_lookup_1 _ _ 2%nat Direct Hfail eq_refl).
    + rewrite Ha in Hrest. unfold default_order in Hord.
      destruct failed as [|f1 [|f2 [|f3 failed] ] ]; simplify_eq/=.
      * eexists _, _. split; [reflexivity|].
        unfold verdict_of, strategy_fn. by rewrite Es.
      * eexists _, _. split; [reflexivity|].
        exact (Forall_lookup_1 _ _ 2%nat Direct Hfail eq_refl).
Qed.

(** C3, as the code has it: a selected method is the entry point into the
    default order.  The run calls the selected strategy and, while
    strategies return [False] on the input, every later one up to simple; it
    returns at the first that returns [True], with that strategy's file
    system; its events are exactly the events of the strategies it ran; it
    reports failure only when all of them failed. *)
Theorem process_pdf_from_method env i o s fs :
  ∃ b fs' t failed,
    process_pdf env i o (method_name s) fs = (inr b, fs', t) ∧
    Forall (λ s', verdict_of env i o fs s' = inr false) failed ∧
    ((b = false ∧ failed = drop (rank s) default_order ∧
      attempts t = failed_attempts failed ∧
      t = concat (trace_of env i o fs <$> failed)) ∨
     (b = true ∧ ∃ s' rest, drop (rank s) default_order = failed ++ s' :: rest ∧
        strategy_fn env s' i o "KYC Report" "PD Report" fs
          = (inr true, fs', trace_of env i o fs s') ∧
        attempts t = failed_attempts failed ++ [(s', true)] ∧
        t = concat (trace_of env i o fs <$> failed) ++ trace_of env i o fs s')).
Proof.
  destruct (process_pdf_from env i o s fs) as (b & fs' & t & failed & E & Hfail & H).
  exists b, fs', t, failed. split; [exact E|]. split; [exact Hfail|].
  destruct H as [(-> & -> & -> & Ha & _)|(-> & s' & rest & d' & Hord & Es & -> & Ha & _)].
  - by left.
  - right. split; [done|]. by exists s', rest.
Qed.

(** C3 fails as stated: with the method restricted to direct, on a page
    without the target text, the direct strategy returns [False], and the
    run goes on to call overlay, precise, standard and simple, writes the
    output of simple and reports success. *)
Lemma single_method_falls_through :
  replace_text_direct demo_env "in.pdf" "out.pdf" "KYC Report" "PD Report" plain_fs
    = (inr false, plain_fs,
       [EvCall Direct; EvOpen "in.pdf"; EvReturn Direct false]) ∧
  process_pdf demo_env "in.pdf" "out.pdf" "direct" plain_fs
    = (inr true, <["out.pdf" := plain_doc]> plain_fs,
       [EvCall Direct; EvOpen "in.pdf"; EvReturn Direct false;
        EvCall Overlay; EvOpen "in.pdf"; EvReturn Overlay false;
        EvCall Precise; EvOpen "in.pdf"; EvReturn Precise false;
        EvCall Standard; EvOpen "in.pdf"; EvReturn Standard false;
        EvCall Simple; EvOpen "in.pdf"; EvMkdir "out.pdf"; EvWrite "out.pdf";
        EvReturn Simple true]) ∧
  attempts (process_pdf demo_env "in.pdf" "out.pdf" "direct" plain_fs).2
    = [(Direct, false); (Overlay, false); (Precise, false);
       (Standard, false); (Simple, true)].
Proof. vm_compute. repeat split; reflexivity. Qed.

(** C9: a method name outside the seven recognised ones makes [process_pdf]
    return [False] at once: no strategy is attempted, no file is opened,
    nothing is written and the file system is left as it was. *)
Theorem process_pdf_unrecognized_method env i o method fs :
  recognized method = false →
  ∃ t, process_pdf env i o method fs = (inr false, fs, t) ∧
       attempts t = [] ∧ opens t = [] ∧ writes t = [] ∧ t = [].
Proof.
  intros Hm. exists []. split; [|done].
  by apply process_pdf_unknown_method, recognized_false.
Qed.

Lemma process_pdf_unrecognized_method_witness :
  recognized "fast" = false ∧
  ∃ t, process_pdf demo_env "in.pdf" "out.pdf" "fast" title_fs = (inr false, title_fs, t) ∧
       attempts t = [] ∧ opens t = [] ∧ writes t = [] ∧ t = [].
Proof.
  split; [reflexivity|].
  apply (process_pdf_unrecognized_method demo_env "in.pdf" "out.pdf" "fast" title_fs).
  reflexivity.
Defined.

(** C4 fails as stated: the strategies write straight to the destination.
    When the write raises after the destination was opened for writing, the
    strategy returns [False] and the document that was at the destination is
    gone: a failed run leaves a partial output behind.  Here every strategy
    that reaches its write breaks in it, the run reports failure, and the
    earlier output at "out.pdf" is lost. *)
Lemma failed_write_truncates_output :
  stale_fs !! "out.pdf" = Some plain_doc ∧
  process_pdf_simple breaking_env "in.pdf" "out.pdf" stale_fs
    = (inr false, delete "out.pdf" stale_fs,
       [EvCall Simple; EvOpen "in.pdf"; EvMkdir "out.pdf"; EvWrite "out.pdf";
        EvReturn Simple false]) ∧
  process_pdf breaking_env "in.pdf" "out.pdf" "clean" stale_fs
    = (inr false, delete "out.pdf" stale_fs,
       [EvCall Clean; EvOpen "in.pdf"; EvMkdir "out.pdf"; EvWrite "out.pdf";
        EvReturn Clean false;
        EvCall Minimal; EvOpen "in.pdf"; EvMkdir "out.pdf"; EvWrite "out.pdf";
        EvReturn Minimal false;
        EvCall Direct; EvOpen "in.pdf"; EvReturn Direct false;
        EvCall Overlay; EvOpen "in.pdf"; EvMkdir "out.pdf"; EvWrite "out.pdf";
        EvReturn Overlay false;
        EvCall Precise; EvOpen "in.pdf"; EvReturn Precise false;
        EvCall Standard; EvOpen "in.pdf"; EvMkdir "out.pdf"; EvWrite "out.pdf";
        EvReturn Standard false;
        EvCall Simple; EvOpen "in.pdf"; EvMkdir "out.pdf"; EvWrite "out.pdf";
        EvReturn Simple false]) ∧
  delete "out.pdf" stale_fs !! "out.pdf" = (None : option Document).
Proof. vm_compute. repeat split; reflexivity. Qed.

(** C4, as the code has it: a run changes the file system at the output
    path only; every strategy loads the source afresh, so on any file system
    that holds the same input it gives the same verdict and events; a
    strategy that returns [False] either left the file system as it was and
    wrote nothing, or broke in its write and left the destination without a
    document; a successful run performs exactly one write and its file system
    is the one the single successful strategy produces on the initial file
    system; a failed run leaves the file system untouched and writes
    nothing, unless a write broke, in which case the destination holds no
    document; where writes do not break midway a failed run leaves nothing
    behind. *)
Theorem at_most_one_strategy_persisted env i o method (fs : gmap string Document) :
  ∃ b fs' t,
    process_pdf env i o method fs = (inr b, fs', t) ∧
    (∀ path, path ≠ o → fs' !! path = fs !! path) ∧
    (∀ (s : Strategy) (fs2 : gmap string Document), fs2 !! i = fs !! i →
       verdict_of env i o fs2 s = verdict_of env i o fs s ∧
       trace_of env i o fs2 s = trace_of env i o fs s) ∧
    (∀ (s : Strategy) ts fs1,
       strategy_fn env s i o "KYC Report" "PD Report" fs = (inr false, fs1, ts) →
       (fs1 = fs ∧ writes ts = []) ∨
       (fs1 = delete o fs ∧ writes ts = [o] ∧
        writable env o = false ∧ write_breaks env o = true)) ∧
    ((b = false ∧
      ((fs' = fs ∧ writes t = []) ∨
       (fs' = delete o fs ∧ writes t ≠ [] ∧
        writable env o = false ∧ write_breaks env o = true))) ∨
     (b = true ∧ writes t = [o] ∧
      ∃ s d', last (attempts t) = Some (s, true) ∧ fs' = <[o := d']> fs ∧
              strategy_fn env s i o "KYC Report" "PD Report" fs
                = (inr true, fs', trace_of env i o fs s) ∧
              ∀ s', (s', true) ∈ attempts t → s' = s)) ∧
    (write_breaks env o = false → b = false → fs' = fs ∧ writes t = []).
Proof.
  assert (Hfresh : ∀ (s : Strategy) (fs2 : gmap string Document), fs2 !! i = fs !! i →
       verdict_of env i o fs2 s = verdict_of env i o fs s ∧
       trace_of env i o fs2 s = trace_of env i o fs s).
  { intros s fs2 H2.
    destruct (strategy_fn_run env s i o "KYC Report" "PD Report" fs)
      as (ok & eff & t1 & Hrun & _).
    unfold verdict_of, trace_of. by rewrite (Hrun fs2 H2), (Hrun fs eq_refl). }
  assert (Hfail : ∀ (s : Strategy) ts fs1,
    strategy_fn env s i o "KYC Report" "PD Report" fs = (inr false, fs1, ts) →
    (fs1 = fs ∧ writes ts = []) ∨
    (fs1 = delete o fs ∧ writes ts = [o] ∧
     writable env o = false ∧ write_breaks env o = true)).
  { intros s ts fs1 E.
    destruct (strategy_fn_run env s i o "KYC Report" "PD Report" fs)
      as (ok & eff & t1 & Hrun & _ & _ & Heff).
    rewrite (Hrun fs eq_refl) in E. destruct eff as [| |d']; simplify_eq/=.
    - left. by destruct Heff.
    - right. destruct Heff as (_ & ? & ? & ? & _). done.
    - by destruct Heff. }
  destruct (recognized method) eqn:Hm.
  - apply recognized_true in Hm as [s0 ->].
    destruct (process_pdf_from env i o s0 fs) as (b & fs' & t & failed & E & _ & H).
    exists b, fs', t. split; [done|].
    destruct H as [(-> & _ & _ & _ & He)|(-> & s & rest & d' & _ & Es & _ & Ha & -> & Hw & Hws)].
    + split; [|split; [done|split; [done|split; [by left|] ] ] ].
      * intros path Hp. destruct He as [(-> & _)|(-> & _)]; [done|].
        by apply lookup_delete_ne.
      * intros Hb _. destruct He as [?|(_ & _ & _ & ?)]; [done|congruence].
    + split; [|split; [done|split; [done|split; [|done] ] ] ].
      * intros path Hp. by apply lookup_insert_ne.
      * right. do 2 (split; [done|]). exists s, d'. rewrite Ha.
        split; [by rewrite last_snoc|]. do 2 (split; [done|]).
        intros s' [Hin|Hin]%elem_of_app.
        { unfold failed_attempts in Hin.
          apply list_elem_of_fmap in Hin as (? & [=] & _). }
        { by apply list_elem_of_singleton in Hin as [= ->]. }
  - exists false, fs, [].
    rewrite (process_pdf_unknown_method env i o method fs (recognized_false _ Hm)).
    split; [done|]. do 3 (split; [done|]). split; [|done]. left. split; [done|]. by left.
Qed.

(** C8: an exception raised inside a strategy is absorbed by the strategy
    function, which returns [False].  In a run that reaches the strategy
    (the strategies before it in the order return [False] on the input) the
    events of the run are those of the earlier strategies, then the call that
    raised and returned [False], then the run from the next strategy of the
    order on: the same verdict and events as a run entered at that next
    strategy, which is attempted; when there is no next strategy the run
    returns [False].  [process_pdf] itself never raises: whatever the method
    and the file system, the caller gets a boolean. *)
Theorem strategy_exceptions_absorbed env i o s0 before s after
    (fs : gmap string Document) e fs1 t1 :
  drop (rank s0) default_order = before ++ s :: after →
  Forall (λ s', verdict_of env i o fs s' = inr false) before →
  strategy_body env s i o "KYC Report" "PD Report" fs = (inl e, fs1, t1) →
  strategy_fn env s i o "KYC Report" "PD Report" fs
    = (inr false, fs1, EvCall s :: t1 ++ [EvReturn s false]) ∧
  (∃ b fs' t_next,
     process_pdf env i o (method_name s0) fs
       = (inr b, fs',
          concat (trace_of env i o fs <$> before) ++
          (EvCall s :: t1 ++ [EvReturn s false]) ++ t_next) ∧
     match after with
     | [] => b = false ∧ t_next = []
     | next :: _ =>
         ∃ fs'' ok rest,
           process_pdf env i o (method_name next) fs = (inr b, fs'', t_next) ∧
           attempts t_next = (next, ok) :: rest ∧
           verdict_of env i o fs next = inr ok
     end) ∧
  (∀ method fs0, ∃ b fs' t, process_pdf env i o method fs0 = (inr b, fs', t)).
Proof.
  intros Hord Hbefore Hraise.
  assert (Hfn : strategy_fn env s i o "KYC Report" "PD Report" fs
                = (inr false, fs1, EvCall s :: t1 ++ [EvReturn s false])).
  { rewrite strategy_fn_guarded. by rewrite (guarded_spec _ _ _ _ _ _ Hraise). }
  split; [exact Hfn|]. split; [|intros; apply process_pdf_total].
  assert (Hend : simple_at_end (before ++ s :: after)).
  { rewrite <- Hord. apply simple_at_end_order. }
  rewrite process_pdf_is_chain, Hord.
  destruct (run_chain_failed_prefix env i o before (s :: after) fs Hend)
    as (fsm & Hm & E); [done|done|].
  rewrite E, run_chain_cons. unfold bindM. clear E.
  destruct (strategy_fn_run env s i o "KYC Report" "PD Report" fs)
    as (ok & eff & ts & Hrun & _ & _ & Heff).
  pose proof (Hrun fs eq_refl) as Hfs. rewrite Hfn in Hfs. simplify_eq.
  rewrite (Hrun fsm Hm). cbv beta iota zeta.
  destruct after as [|next rest].
  - exists false, (apply_effect o eff fsm), []. split; [|done].
    cbn [chain_of fmap list_fmap run_chain]. unfold ret. by rewrite !app_nil_r.
  - assert (Hin : apply_effect o eff fsm !! i = fs !! i).
    { destruct eff as [| |d']; simpl.
      - done.
      - destruct Heff as (_ & _ & _ & _ & Hoi).
        rewrite lookup_delete_ne; [done|]. apply Hoi. intros ->.
        by pose proof (Hend before (next :: rest) eq_refl).
      - by destruct Heff as [? _]. }
    destruct (run_chain_run env i o (next :: rest) fs
                (simple_at_end_tail _ _ (simple_at_end_app _ _ Hend)))
      as (b & eff2 & t2 & failed & Hrun2 & Hfail2 & Hcases).
    rewrite (Hrun2 _ Hin).
    exists b, (apply_effect o eff2 (apply_effect o eff fsm)), t2.
    split; [done|].
    exists (apply_effect o eff2 fs).
    assert (Hentry : process_pdf env i o (method_name next) fs
                     = (inr b, apply_effect o eff2 fs, t2)).
    { rewrite process_pdf_is_chain, <- (order_suffix s0 (before ++ [s]) next rest).
      - by apply Hrun2.
      - by rewrite <- app_assoc. }
    destruct Hcases as [(-> & -> & _ & Ha & _)|(-> & s' & rest' & d' & Hsplit & Es & _ & Ha & _)].
    + exists false, (failed_attempts rest). do 2 (split; [done|]).
      exact (Forall_lookup_1 _ _ 0%nat next Hfail2 eq_refl).
    + destruct failed as [|f failed]; simplify_eq/=.
      * exists true, []. do 2 (split; [done|]). unfold verdict_of. by rewrite Es.
      * eexists false, _. split; [done|]. split; [exact Ha|].
        exact (Forall_lookup_1 _ _ 0%nat _ Hfail2 eq_refl).
Qed.

Lemma strategy_exceptions_absorbed_witness :
  strategy_fn nofont_env Minimal "in.pdf" "out.pdf" "KYC Report" "PD Report" title_fs
    = (inr false, title_fs,
       EvCall Minimal :: [EvOpen "in.pdf"] ++ [EvReturn Minimal false]) ∧
  (∃ b fs' t_next,
     process_pdf nofont_env "in.pdf" "out.pdf" (method_name Clean) title_fs
       = (inr b, fs',
          concat (trace_of nofont_env "in.pdf" "out.pdf" title_fs <$> [Clean]) ++
          (EvCall Minimal :: [EvOpen "in.pdf"] ++ [EvReturn Minimal false]) ++ t_next) ∧
     ∃ fs'' ok rest,
       process_pdf nofont_env "in.pdf" "out.pdf" (method_name Direct) title_fs
         = (inr b, fs'', t_next) ∧
       attempts t_next = (Direct, ok) :: rest ∧
       verdict_of nofont_env "in.pdf" "out.pdf" title_fs Direct = inr ok) ∧
  (∀ method fs0, ∃ b fs' t,
     process_pdf nofont_env "in.pdf" "out.pdf" method fs0 = (inr b, fs', t)).
Proof.
  apply (strategy_exceptions_absorbed nofont_env "in.pdf" "out.pdf" Clean [Clean]
           Minimal [Direct; Overlay; Precise; Standard; Simple]
           title_fs FontError title_fs [EvOpen "in.pdf"]).
  - reflexivity.
  - constructor; [vm_compute; reflexivity|constructor].
  - vm_compute. reflexivity.
Defined.

(** The direct and precise strategies never report success: when the target
    is found they end in [doc.insert_page(0, new_page)], which is given a page
    object where it expects text, and the exception makes them return
    [False]. *)
Remark rebuild_strategies_never_succeed env s i o old_text new_text fs :
  s = Direct ∨ s = Precise →
  strategy_fn env s i o old_text new_text fs
    = (inr false, fs, [EvCall s; EvOpen i; EvReturn s false]).
Proof.
  intros Hs. rewrite strategy_fn_guarded.
  destruct (rebuild_body_never_true env i o old_text new_text fs) as (r & E & Hr).
  assert (strategy_body env s i o old_text new_text fs = (r, fs, [EvOpen i])) as Hb.
  { by destruct Hs as [-> | ->]. }
  rewrite (guarded_spec _ _ _ _ _ _ Hb).
  assert (absorbed r = false) as ->; [|done].
  destruct r as [e|[|] ]; [done|congruence|done].
Qed.

(** C6: whenever a strategy reports success, the document it wrote has as
    many pages as the input and the same pages from index 1 on; the input is
    the only file opened; and the run looks at page 0 only: on any input with
    the same page 0 the strategy succeeds as well, with the same events and
    the same output page 0. *)
Theorem successful_strategy_keeps_other_pages env s i o old_text new_text fs fs' t :
  strategy_fn env s i o old_text new_text fs = (inr true, fs', t) →
  ∃ d d',
    fs !! i = Some d ∧ fs' !! o = Some d' ∧
    length (pages d') = length (pages d) ∧
    (∀ n, (1 ≤ n)%nat → pages d' !! n = pages d !! n) ∧
    opens t = [i] ∧ writes t = [o] ∧
    (∀ fs2 d2, fs2 !! i = Some d2 → pages d2 !! 0%nat = pages d !! 0%nat →
       ∃ fs2' d2', strategy_fn env s i o old_text new_text fs2 = (inr true, fs2', t) ∧
                   fs2' !! o = Some d2' ∧
                   length (pages d2') = length (pages d2) ∧
                   (∀ n, (1 ≤ n)%nat → pages d2' !! n = pages d2 !! n) ∧
                   pages d2' !! 0%nat = pages d' !! 0%nat).
Proof.
  intros E.
  destruct (strategy_fn_run env s i o old_text new_text fs)
    as (ok & eff & t1 & Hrun & _ & Ho & Heff).
  rewrite (Hrun fs eq_refl) in E.
  destruct eff as [| |d']; simplify_eq/=; [by destruct Heff..|].
  destruct Heff as (_ & Hw & _ & d & Hd & [Hlen Htail] & NI).
  exists d, d'. split; [done|]. split; [apply lookup_insert_eq|].
  do 4 (split; [done|]).
  intros fs2 d2 Hd2 Hp2. destruct (NI fs2 d2 Hd2 Hp2) as (d2' & E2 & Hp).
  exists (<[o := d2']> fs2), d2'. split; [done|]. split; [apply lookup_insert_eq|].
  destruct (strategy_fn_run env s i o old_text new_text fs2)
    as (ok2 & eff2 & t2 & Hrun2 & _ & _ & Heff2).
  rewrite (Hrun2 fs2 eq_refl) in E2.
  destruct eff2 as [| |d3']; simplify_eq/=; [by destruct Heff2..|].
  destruct Heff2 as (_ & _ & _ & d3 & Hd3 & [Hlen3 Htail3] & _).
  assert (d3' = d2') as ->.
  { assert (Hl : (<[o := d3']> fs2) !! o = (<[o := d2']> fs2) !! o) by congruence.
    rewrite !lookup_insert_eq in Hl. congruence. }
  simplify_eq. done.
Qed.

Lemma successful_strategy_keeps_other_pages_witness :
  ∃ d d',
    title_fs !! "in.pdf" = Some d ∧
    (<["out.pdf" := set_page0 title_doc (clean_title_page demo_env)]> title_fs)
      !! "out.pdf" = Some d' ∧
    length (pages d') = length (pages d) ∧
    (∀ n, (1 ≤ n)%nat → pages d' !! n = pages d !! n) ∧
    opens [EvCall Clean; EvOpen "in.pdf"; EvMkdir "out.pdf"; EvWrite "out.pdf";
           EvReturn Clean true] = ["in.pdf"] ∧
    writes [EvCall Clean; EvOpen "in.pdf"; EvMkdir "out.pdf"; EvWrite "out.pdf";
            EvReturn Clean true] = ["out.pdf"] ∧
    (∀ fs2 d2, fs2 !! "in.pdf" = Some d2 → pages d2 !! 0%nat = pages d !! 0%nat →
       ∃ fs2' d2',
         strategy_fn demo_env Clean "in.pdf" "out.pdf" "KYC Report" "PD Report" fs2
           = (inr true, fs2',
              [EvCall Clean; EvOpen "in.pdf"; EvMkdir "out.pdf"; EvWrite "out.pdf";
               EvReturn Clean true]) ∧
         fs2' !! "out.pdf" = Some d2' ∧
         length (pages d2') = length (pages d2) ∧
         (∀ n, (1 ≤ n)%nat → pages d2' !! n = pages d2 !! n) ∧
         pages d2' !! 0%nat = pages d' !! 0%nat).
Proof.
  apply (successful_strategy_keeps_other_pages demo_env Clean "in.pdf" "out.pdf"
           "KYC Report" "PD Report" title_fs).
  vm_compute. reflexivity.
Defined.

(** C5 fails as stated: on the scenario, the clean strategy draws only the
    new text, not the rest of the line, and it paints over the old span
    without removing it, so the extracted text of the resulting page 0 still
    contains "KYC Report" and does not contain
    "2024 PD Report - Confidential". *)
Lemma clean_scenario_extraction :
  let '(r, fs', t) :=
    replace_text_clean demo_env "in.pdf" "out.pdf" "KYC Report" "PD Report" title_fs in
  r = inr true ∧
  fs' !! "out.pdf" = Some {| pages := [clean_title_page demo_env; plain_page] |} ∧
  PyStr.contains "KYC Report" (extract_text (clean_title_page demo_env)) = true ∧
  PyStr.contains "2024 PD Report - Confidential"
    (extract_text (clean_title_page demo_env)) = false.
Proof. vm_compute. repeat split; reflexivity. Qed.

(** C5, as the code has it: on an input whose page 0 holds the scenario's
    span, with the font resolvable and the output writable, the clean
    strategy succeeds and writes the input with page 0 changed as follows: a
    white rectangle over the span's box grown by 3 units, (47, 697, 303, 718),
    and the text "PD Report" drawn at (50, 710) in Helvetica-Bold 14 in the
    accent colour.  Nothing is removed: the extracted text contains
    "PD Report" next to the old line. *)
Theorem clean_on_title_scenario env i o fs rest :
  fs !! i = Some {| pages := title_page :: rest |} →
  font_resolves env "Helvetica-Bold" = true →
  mkdir_ok env o = true → writable env o = true → o ≠ i →
  replace_text_clean env i o "KYC Report" "PD Report" fs
    = (inr true, <[o := {| pages := clean_title_page env :: rest |}]> fs,
       [EvCall Clean; EvOpen i; EvMkdir o; EvWrite o; EvReturn Clean true]) ∧
  page_drawings (clean_title_page env)
    = [FilledRect (mkRect 47 697 303 718) white white] ∧
  (∃ drawn, page_blocks (clean_title_page env)
              = page_blocks title_page ++ [TextBlock [[drawn]]] ∧
            span_text drawn = "PD Report" ∧
            span_origin drawn = mkPoint 50 710 ∧
            span_size drawn = 14%Q ∧ span_font drawn = "Helvetica-Bold" ∧
            (PySeq ∘ rgb_list) <$> hex_to_rgb "#0066cc" = span_color drawn) ∧
  PyStr.contains "PD Report" (extract_text (clean_title_page env)) = true ∧
  PyStr.contains (span_text title_span) (extract_text (clean_title_page env)) = true.
Proof.
  intros Hfs Hfont Hmk Hw Hne. split; [|split; [done|split] ].
  - unfold replace_text_clean.
    rewrite (guarded_spec _ _ fs (inr true)
               (<[o := {| pages := clean_title_page env :: rest |}]> fs)
               [EvOpen i; EvMkdir o; EvWrite o]); [reflexivity|].
    apply String.eqb_neq in Hne.
    unfold replace_text_clean_body, open_document, doc_getitem, mkdir_parent,
      doc_save, write_file, accent_color, insert_text, bindM, emit, lift_option,
      ret, raise.
    rewrite Hfs. cbn -[insert]. rewrite Hfont, Hmk, Hne, Hw. cbn -[insert].
    reflexivity.
  - eexists. split; [reflexivity|]. by vm_compute.
  - split; reflexivity.
Qed.

Lemma clean_on_title_scenario_witness :
  replace_text_clean demo_env "in.pdf" "out.pdf" "KYC Report" "PD Report" title_fs
    = (inr true,
       <["out.pdf" := {| pages := clean_title_page demo_env :: [plain_page] |}]> title_fs,
       [EvCall Clean; EvOpen "in.pdf"; EvMkdir "out.pdf"; EvWrite "out.pdf";
        EvReturn Clean true]) ∧
  page_drawings (clean_title_page demo_env)
    = [FilledRect (mkRect 47 697 303 718) white white] ∧
  (∃ drawn, page_blocks (clean_title_page demo_env)
              = page_blocks title_page ++ [TextBlock [[drawn]]] ∧
            span_text drawn = "PD Report" ∧
            span_origin drawn = mkPoint 50 710 ∧
            span_size drawn = 14%Q ∧ span_font drawn = "Helvetica-Bold" ∧
            (PySeq ∘ rgb_list) <$> hex_to_rgb "#0066cc" = span_color drawn) ∧
  PyStr.contains "PD Report" (extract_text (clean_title_page demo_env)) = true ∧
  PyStr.contains (span_text title_span) (extract_text (clean_title_page demo_env)) = true.
Proof.
  apply (clean_on_title_scenario demo_env "in.pdf" "out.pdf" title_fs [plain_page]);
    [reflexivity | reflexivity | reflexivity | reflexivity | discriminate].
Defined.

(** ** The copy loop of the page-rebuilding strategies *)

Section CopyLoop.

Context (env : Env) (old_text new_text : string).

Lemma appends_foldM {B} (body : Page → B → M Page) (spans_of : B → list Span) xs :
  (∀ x, appends old_text new_text (spans_of x) (fun np => body np x)) →
  appends old_text new_text (concat (spans_of <$> xs)) (fun np => foldM body np xs).
Proof.
  intros Hbody. induction xs as [|x xs IH]; intros np np' fs fs1 t; simpl.
  - intros [= <- <- <-]. exists []. by rewrite app_nil_r.
  - intros [(e & _ & [=])|(mid & fs2 & t1 & t2 & E1 & E2 & ->)]%bindM_inv.
    destruct (Hbody x _ _ _ _ _ E1) as (out1 & Hb1 & HF1 & Hd1 & Hw1 & Hh1 & -> & ->).
    destruct (IH _ _ _ _ _ E2) as (out2 & Hb2 & HF2 & Hd2 & Hw2 & Hh2 & -> & ->).
    exists (out1 ++ out2). rewrite filter_app, fmap_app, Hb2, Hb1, app_assoc.
    split; [done|]. split; [by apply Forall2_app|].
    repeat split; congruence.
Qed.

Lemma truthy_strip s : PyStr.truthy (PyStr.strip s) = true → PyStr.truthy s = true.
Proof. by destruct s. Qed.

Lemma accent_color_eq fs :
  accent_color fs = (inr [0 # 255; 102 # 255; 204 # 255]%Q, fs, []).
Proof. reflexivity. Qed.

Lemma copy_span_appends span :
  appends old_text new_text [span] (fun np => copy_span env old_text new_text np span).
Proof.
  intros np np' fs fs1 t. unfold copy_span.
  fold (copied_text old_text new_text span).
  rewrite filter_cons, filter_nil.
  destruct (decide (emitted old_text new_text span = true)) as [Hemit|Hemit];
    unfold emitted in Hemit.
  2: { apply not_true_is_false in Hemit. rewrite Hemit.
       intros [= <- <- <-]. exists []. by rewrite app_nil_r. }
  rewrite Hemit. apply truthy_strip in Hemit. unfold insert_text, bindM. rewrite Hemit.
  destruct (PyStr.contains new_text (copied_text old_text new_text span)) eqn:Hnew.
  - rewrite accent_color_eq. cbn [negb].
    destruct (font_resolves env (span_font span)); cbn [negb]; [|done].
    destruct (color_ok _); cbn [negb]; [|done].
    intros [= <- <- <-]. eexists (_ :: nil). split; [reflexivity|].
    split; [|done]. constructor; [|constructor].
    unfold re_emitted. rewrite Hnew. by repeat split.
  - unfold ret at 1. cbn [negb].
    destruct (font_resolves env (span_font span)); cbn [negb]; [|done].
    destruct (color_ok _); cbn [negb]; [|done].
    intros [= <- <- <-]. eexists (_ :: nil). split; [reflexivity|].
    split; [|done]. constructor; [|constructor].
    unfold re_emitted. rewrite Hnew. simpl. do 4 (split; [done|]).
    destruct (span_color span) as [ [n|q|l|]|]; simpl; try done.
    destruct (decide (length l ∈ [1; 3; 4]%nat)) as [Hin|Hout].
    + by rewrite (bool_decide_eq_false_2 _ (λ H, H Hin)), (bool_decide_eq_true_2 _ Hin).
    + by rewrite (bool_decide_eq_true_2 _ Hout), (bool_decide_eq_false_2 _ Hout).
Qed.

Lemma concat_singletons {A} (l : list A) : concat ((fun x => [x]) <$> l) = l.
Proof. induction l as [|x l IH]; csimpl; [done|]. by rewrite IH. Qed.

Lemma copy_line_appends line :
  appends old_text new_text line (fun np => copy_line env old_text new_text np line).
Proof.
  rewrite <- (concat_singletons line) at 1. unfold copy_line.
  apply (appends_foldM (copy_span env old_text new_text) (fun s => [s])).
  apply copy_span_appends.
Qed.

Lemma copy_block_appends block :
  appends old_text new_text (block_spans block) (fun np => copy_block env old_text new_text np block).
Proof.
  destruct block as [lines|]; simpl.
  - unfold block_spans; simpl. rewrite <- (list_fmap_id lines) at 1.
    apply (appends_foldM (copy_line env old_text new_text) id).
    apply copy_line_appends.
  - intros np np' fs fs1 t [= <- <- <-]. exists []. by rewrite app_nil_r.
Qed.

(** C7, as the code has it: the copy loop of the direct and precise
    strategies adds to the new page one drawn span for every span of page 0
    whose text, after the replacement, is not blank, in the order of the
    page, each at the left end of the source box two units above its bottom
    edge, with the source's font and size and its text with the old text
    replaced; spans whose text then contains the new text are drawn in the
    accent colour of ["#0066cc"], the others keep a colour that is a sequence
    of 1, 3 or 4 components and are drawn black when the colour is missing,
    a sequence of another length, or neither a sequence nor a number.
    Nothing else is added to the page. *)
Theorem rebuild_re_emits_spans blocks np np' fs fs1 t :
  copy_blocks env old_text new_text np blocks fs = (inr np', fs1, t) →
  ∃ out,
    page_blocks np' = page_blocks np ++ (drawn_block <$> out) ∧
    Forall2 (re_emitted old_text new_text)
      (filter (fun s => emitted old_text new_text s = true) (all_spans blocks)) out ∧
    page_drawings np' = page_drawings np ∧
    page_width np' = page_width np ∧ page_height np' = page_height np ∧
    fs1 = fs ∧ t = [].
Proof.
  apply (appends_foldM (copy_block env old_text new_text) block_spans).
  apply copy_block_appends.
Qed.

End CopyLoop.

Lemma rebuild_re_emits_spans_witness :
  ∃ np',
    copy_blocks demo_env "KYC Report" "PD Report" (blank_page 612 792) mixed_blocks ∅
      = (inr np', ∅, []) ∧
    ∃ out,
      page_blocks np' = page_blocks (blank_page 612 792) ++ (drawn_block <$> out) ∧
      Forall2 (re_emitted "KYC Report" "PD Report")
        (filter (fun s => emitted "KYC Report" "PD Report" s = true)
           (all_spans mixed_blocks)) out ∧
      page_drawings np' = page_drawings (blank_page 612 792) ∧
      page_width np' = page_width (blank_page 612 792) ∧
      page_height np' = page_height (blank_page 612 792) ∧
      (∅ : gmap string Document) = ∅ ∧ (@nil Event) = [].
Proof.
  eexists. split; [vm_compute; reflexivity|].
  eapply (rebuild_re_emits_spans demo_env "KYC Report" "PD Report" mixed_blocks
            (blank_page 612 792) _ ∅ ∅ []).
  vm_compute. reflexivity.
Defined.

(** C7 fails as stated: of the three spans of the example page the blank
    one is not drawn on the new page, and the one-component grey of the
    footer, which is neither a 3- or 4-component tuple nor a number, is kept
    rather than turned into black. *)
Lemma rebuild_skips_blank_keeps_grey :
  let '(r, _, _) :=
    copy_blocks demo_env "KYC Report" "PD Report" (blank_page 612 792) mixed_blocks ∅ in
  length (all_spans mixed_blocks) = 3%nat ∧
  ∃ np', r = inr np' ∧
    (fun s => (span_text s, span_color s)) <$> all_spans (page_blocks np')
    = [("PD Report", Some (PySeq [0 # 255; 102 # 255; 204 # 255]));
       ("Footer", Some (PySeq [1 # 2]))].
Proof. vm_compute. split; [reflexivity|]. eexists. split; reflexivity. Qed.

(** ** The simple strategy *)

(** C2 fails as stated: on a readable document whose page 0 does not
    contain "KYC Report" the simple strategy reports success and writes the
    input unchanged; no watermark is added. *)
Lemma simple_without_target_adds_nothing :
  let '(r, fs', t) := process_pdf_simple demo_env "in.pdf" "out.pdf" plain_fs in
  r = inr true ∧
  PyStr.contains "KYC Report" (extract_text plain_page) = false ∧
  fs' !! "out.pdf" = Some plain_doc ∧
  PyStr.contains "PD Report" (extract_text plain_page) = false.
Proof. vm_compute. repeat split; reflexivity. Qed.

(** C2, as the code has it: on a readable input with a writable output the
    simple strategy reports success and writes a document with the same
    pages, except that page 0 gets the watermark merged in when, and only
    when, its extracted text contains "KYC Report".  The watermark is the
    text "PD Report" in blue Helvetica-Bold 24 at the fixed position
    (50, 692) of PDF user space, added after the page's own content, which
    stays as it was. *)
Theorem simple_watermarks_on_match env i o fs d :
  fs !! i = Some d → mkdir_ok env o = true → writable env o = true →
  ∃ d',
    process_pdf_simple env i o fs
      = (inr true, <[o := d']> fs,
         [EvCall Simple; EvOpen i; EvMkdir o; EvWrite o; EvReturn Simple true]) ∧
    length (pages d') = length (pages d) ∧
    (∀ n, (1 ≤ n)%nat → pages d' !! n = pages d !! n) ∧
    (∀ p, pages d !! 0%nat = Some p →
       ∃ p', pages d' !! 0%nat = Some p' ∧
         if PyStr.contains "KYC Report" (extract_text p)
         then page_blocks p' = page_blocks p ++ [TextBlock [[watermark_span env p]]] ∧
              page_drawings p' = page_drawings p ∧
              page_width p' = page_width p ∧ page_height p' = page_height p ∧
              span_text (watermark_span env p) = "PD Report" ∧
              span_font (watermark_span env p) = "Helvetica-Bold" ∧
              span_size (watermark_span env p) = 24%Q ∧
              span_color (watermark_span env p) = Some (PySeq [0; 0; 1]%Q) ∧
              span_origin (watermark_span env p) = pdf_to_page_point p 50 (792 - 100)
         else p' = p).
Proof.
  intros Hd Hmk Hw. exists {| pages := imap (simple_page env) (pages d) |}.
  split; [|split; [|split] ].
  - unfold process_pdf_simple.
    rewrite (guarded_spec _ _ fs (inr true)
               (<[o := {| pages := imap (simple_page env) (pages d) |}]> fs)
               [EvOpen i; EvMkdir o; EvWrite o]); [reflexivity|].
    unfold process_pdf_simple_body, open_document, mkdir_parent, write_file,
      bindM, emit, lift_option, ret, raise.
    by rewrite Hd, Hmk, Hw.
  - simpl. apply length_imap.
  - intros n Hn. simpl. rewrite list_lookup_imap.
    destruct (pages d !! n); [|done]. by destruct n; [lia|].
  - intros p Hp. simpl. rewrite list_lookup_imap, Hp. simpl.
    eexists. split; [reflexivity|]. unfold simple_page. cbn [Nat.eqb].
    destruct (PyStr.contains "KYC Report" (extract_text p)); [|done].
    repeat split; reflexivity.
Qed.

Lemma simple_watermarks_on_match_witness :
  ∃ d',
    process_pdf_simple demo_env "in.pdf" "out.pdf" title_fs
      = (inr true, <["out.pdf" := d']> title_fs,
         [EvCall Simple; EvOpen "in.pdf"; EvMkdir "out.pdf"; EvWrite "out.pdf";
          EvReturn Simple true]) ∧
    length (pages d') = length (pages title_doc) ∧
    (∀ n, (1 ≤ n)%nat → pages d' !! n = pages title_doc !! n) ∧
    (∀ p, pages title_doc !! 0%nat = Some p →
       ∃ p', pages d' !! 0%nat = Some p' ∧
         if PyStr.contains "KYC Report" (extract_text p)
         then page_blocks p' = page_blocks p ++ [TextBlock [[watermark_span demo_env p]]] ∧
              page_drawings p' = page_drawings p ∧
              page_width p' = page_width p ∧ page_height p' = page_height p ∧
              span_text (watermark_span demo_env p) = "PD Report" ∧
              span_font (watermark_span demo_env p) = "Helvetica-Bold" ∧
              span_size (watermark_span demo_env p) = 24%Q ∧
              span_color (watermark_span demo_env p) = Some (PySeq [0; 0; 1]%Q) ∧
              span_origin (watermark_span demo_env p) = pdf_to_page_point p 50 (792 - 100)
         else p' = p).
Proof.
  apply (simple_watermarks_on_match demo_env "in.pdf" "out.pdf" title_fs title_doc);
    reflexivity.
Defined.

(** * Further properties of the module *)

(** ** The search loops *)

Lemma head_app {A} (l1 l2 : list A) :
  head (l1 ++ l2) = match head l1 with Some x => Some x | None => head l2 end.
Proof. by destruct l1. Qed.

Lemma find_in_spans_head old_text spans :
  find_in_spans old_text spans
  = head (filter (fun s => PyStr.contains old_text (span_text s) = true) spans).
Proof.
  induction spans as [|s spans IH]; simpl; [done|].
  rewrite filter_cons. destruct (PyStr.contains old_text (span_text s)) eqn:E.
  - by rewrite decide_True.
  - by rewrite decide_False.
Qed.

Lemma find_in_lines_head old_text lines :
  find_in_lines old_text lines
  = head (filter (fun s => PyStr.contains old_text (span_text s) = true) (concat lines)).
Proof.
  induction lines as [|l lines IH]; simpl; [done|].
  rewrite filter_app, head_app, <- find_in_spans_head, IH.
  by destruct (find_in_spans old_text l).
Qed.

(** X1: the nested search loops with their [break]s return the first span,
    in block, line and span order, whose text contains the old text, and
    nothing exactly when no span contains it. *)
Theorem find_target_span_first_match blocks old_text :
  find_target_span blocks old_text
  = head (filter (fun s => PyStr.contains old_text (span_text s) = true)
            (all_spans blocks)).
Proof.
  induction blocks as [|b blocks IH]; [done|].
  change (all_spans (b :: blocks)) with (block_spans b ++ all_spans blocks).
  rewrite filter_app, head_app, <- IH.
  destruct b as [lines|]; [|done].
  change (block_spans (TextBlock lines)) with (concat lines).
  rewrite <- find_in_lines_head. simpl.
  by destruct (find_in_lines old_text lines).
Qed.

(** ** Colours *)

Lemma lstrip_hashes n s : PyStr.lstrip_char "#" (hashes n +:+ s) = PyStr.lstrip_char "#" s.
Proof. induction n as [|n IH]; [done|]. exact IH. Qed.

Lemma lstrip_char_length (ch : ascii) (x : string) :
  (String.length (PyStr.lstrip_char ch x) ≤ String.length x)%nat.
Proof.
  induction x as [|a x IHx]; simpl; [lia|]. destruct (Ascii.eqb a ch); simpl; lia.
Qed.

Lemma substring_empty (n : nat) (s : string) : String.substring n 0 s = "".
Proof. revert n. induction s as [|c s IH]; intros [|n]; simpl; auto. Qed.

(** X2: [hex_to_rgb] looks at the first six characters behind the leading
    number signs only: any number of leading [#] and anything after the sixth
    character leave the result unchanged, so an eight-digit colour with an
    alpha component gives the colour of its first six digits. *)
Theorem hex_to_rgb_ignores_rest (s : string) (n : nat) (rest : string) :
  String.length s = 6%nat → PyStr.lstrip_char "#" s = s →
  hex_to_rgb (hashes n +:+ s +:+ rest) = hex_to_rgb s.
Proof.
  intros Hlen Hs. unfold hex_to_rgb. rewrite lstrip_hashes.
  destruct s as [|c1 [|c2 [|c3 [|c4 [|c5 [|c6 [|] ] ] ] ] ] ]; try discriminate Hlen.
  assert (E : Ascii.eqb c1 "#" = false).
  { destruct (Ascii.eqb c1 "#") eqn:E; [|done]. exfalso.
    remember (String c2 (String c3 (String c4 (String c5 (String c6 ""))))) as x.
    cbn [PyStr.lstrip_char] in Hs. rewrite E in Hs.
    apply (f_equal String.length) in Hs.
    pose proof (lstrip_char_length "#" x) as Hle.
    rewrite Hs in Hle. simpl in Hle. lia. }
  unfold PyStr.slice. simpl. rewrite E. simpl.
  by rewrite !substring_empty.
Qed.

Lemma hex_to_rgb_ignores_rest_witness :
  hex_to_rgb (hashes 2 +:+ "0066cc" +:+ "ff") = hex_to_rgb "0066cc".
Proof. apply (hex_to_rgb_ignores_rest "0066cc" 2 "ff"); reflexivity. Defined.

Lemma substring_short (s : string) (n m : nat) :
  (String.length s ≤ n)%nat → String.substring n m s = "".
Proof.
  revert n. induction s as [|c s IH]; intros n Hn.
  - by destruct n, m.
  - destruct n as [|n]; simpl in *; [lia|]. apply IH. lia.
Qed.

(** X3: [hex_to_rgb] raises [ValueError] on every string that has fewer than
    five characters behind its leading number signs: the short forms of a
    colour ([#06c]) and the empty string are rejected, not expanded. *)
Theorem hex_to_rgb_rejects_short (s : string) :
  (String.length (PyStr.lstrip_char "#" s) ≤ 4)%nat → hex_to_rgb s = None.
Proof.
  intros Hlen. unfold hex_to_rgb, PyStr.slice.
  rewrite (substring_short _ 4 2 Hlen).
  change (PyStr.int16 "") with (@None Z).
  destruct (PyStr.int16 (String.substring 0 2 _));
    destruct (PyStr.int16 (String.substring 2 2 _)); reflexivity.
Qed.

Lemma hex_to_rgb_rejects_short_witness : hex_to_rgb "#06c" = None.
Proof. apply (hex_to_rgb_rejects_short "#06c"). simpl. lia. Defined.

(** X4: whatever the colour value of a span, the colour the copy loop
    passes on for it has 1, 3 or 4 components; it is black or the span's own
    sequence; and a number, of any value, always becomes black. *)
Theorem normalize_color_shape (c : option PyValue) :
  length (normalize_color c) ∈ [1; 3; 4]%nat ∧
  (normalize_color c = black ∨ c = Some (PySeq (normalize_color c))) ∧
  (is_number c = true → normalize_color c = black).
Proof.
  assert (Hblack : length black ∈ [1; 3; 4]%nat).
  { simpl. apply list_elem_of_further, list_elem_of_here. }
  destruct c as [ [n|q|l|]|]; simpl.
  - destruct (n >? 0); auto.
  - destruct (Qltb 0 q); auto.
  - case_bool_decide as H.
    + split; [exact Hblack|]. split; [by left|done].
    + split; [|split; [by right|done] ].
      by destruct (decide (length l ∈ [1; 3; 4]%nat)).
  - split; [exact Hblack|]. split; [by left|done].
  - split; [exact Hblack|]. split; [by left|done].
Qed.

(** ** Replacement in the copy loop *)

Lemma prefix_app (a b : string) : String.prefix a (a +:+ b) = true.
Proof.
  induction a as [|c a IH]; simpl; [by destruct b|].
  destruct (ascii_dec c c); [exact IH|contradiction].
Qed.

Lemma prefix_refl (a : string) : String.prefix a a = true.
Proof.
  induction a as [|c a IH]; simpl; [done|].
  destruct (ascii_dec c c); [exact IH|contradiction].
Qed.

Lemma contains_prefix (a s : string) :
  String.prefix a s = true → PyStr.contains a s = true.
Proof. intros H. destruct s; cbn [PyStr.contains]; by rewrite H. Qed.

Lemma contains_cons (a : string) (c : ascii) (s : string) :
  PyStr.contains a s = true → PyStr.contains a (String c s) = true.
Proof. intros H. cbn [PyStr.contains]. rewrite H. apply orb_true_r. Qed.

Lemma replace_go_contains_new (old_text new_text s : string) :
  old_text ≠ "" → PyStr.contains old_text s = true →
  PyStr.contains new_text (PyStr.replace_go old_text new_text 0 s) = true.
Proof.
  intros Hold. induction s as [|c s IH]; intros H.
  - simpl in H. destruct old_text; [done|discriminate H].
  - cbn [PyStr.replace_go].
    destruct (String.prefix old_text (String c s)) eqn:Hp.
    + apply contains_prefix, prefix_app.
    + apply contains_cons, IH.
      cbn [PyStr.contains] in H. rewrite Hp in H. exact H.
Qed.

Lemma replace_contains_new (old_text new_text s : string) :
  PyStr.contains old_text s = true →
  PyStr.contains new_text (PyStr.replace old_text new_text s) = true.
Proof.
  intros H. unfold PyStr.replace. destruct old_text as [|c old_text].
  - apply contains_prefix. destruct s; simpl; [apply prefix_refl|apply prefix_app].
  - by apply replace_go_contains_new.
Qed.

(** X5: a span whose text contains the old text is always drawn by the copy
    loop with the old text replaced and in the accent colour, whatever its
    own colour was: after the replacement its text contains the new text, so
    the colour test of the loop never sends it through the normalisation of
    the other spans. *)
Theorem replaced_span_gets_accent (old_text new_text : string) (s s' : Span) :
  PyStr.contains old_text (span_text s) = true →
  re_emitted old_text new_text s s' →
  span_text s' = PyStr.replace old_text new_text (span_text s) ∧
  PyStr.contains new_text (span_text s') = true ∧
  span_color s' = Some (PySeq [0 # 255; 102 # 255; 204 # 255]).
Proof.
  intros Hold (Htext & _ & _ & _ & Hcolor).
  unfold copied_text in *. rewrite Hold in *.
  rewrite (replace_contains_new _ _ _ Hold) in Hcolor.
  split; [done|]. split; [|exact Hcolor].
  rewrite Htext. by apply replace_contains_new.
Qed.

Lemma replaced_span_gets_accent_witness :
  span_text (drawn_span demo_env (body_span "KYC Report" (Some (PyInt 255)))
               (mkPoint 50 (112 - 2)) "PD Report")
  = PyStr.replace "KYC Report" "PD Report"
      (span_text (body_span "KYC Report" (Some (PyInt 255)))) ∧
  PyStr.contains "PD Report"
    (span_text (drawn_span demo_env (body_span "KYC Report" (Some (PyInt 255)))
                  (mkPoint 50 (112 - 2)) "PD Report")) = true ∧
  span_color (drawn_span demo_env (body_span "KYC Report" (Some (PyInt 255)))
                (mkPoint 50 (112 - 2)) "PD Report")
  = Some (PySeq [0 # 255; 102 # 255; 204 # 255]).
Proof.
  apply (replaced_span_gets_accent "KYC Report" "PD Report"
           (body_span "KYC Report" (Some (PyInt 255)))).
  - reflexivity.
  - repeat split; reflexivity.
Defined.

(** ** Runs of the strategies *)

Section StrategyRuns.

Context (env : Env).

(** The strategy functions that edit page 0 in place, with their plans. *)
Lemma in_place_fn s i o old_text new_text fs :
  in_place s = true →
  strategy_fn env s i o old_text new_text fs =
  guarded s (page_strategy env (plan_of env s old_text new_text) i o) fs.
Proof.
  intros Hs. rewrite strategy_fn_guarded.
  assert (Hbody : ∀ fs0, strategy_body env s i o old_text new_text fs0 =
            page_strategy env (plan_of env s old_text new_text) i o fs0).
  { intros fs0. destruct s; try discriminate Hs; simpl.
    - apply clean_body_shape.
    - apply minimal_body_shape.
    - apply overlay_body_shape.
    - apply standard_body_shape. }
  unfold guarded, bindM, try_except, emit. cbv beta iota. by rewrite Hbody.
Qed.

Lemma non_simple_cases s :
  s ≠ Simple → in_place s = true ∨ s = Direct ∨ s = Precise.
Proof. destruct s; intros H; auto. Qed.

(** When the plan of an in-place strategy does not produce a page, the
    strategy function returns [False] after opening the input. *)
Lemma in_place_fails s i o old_text new_text fs d p rp :
  in_place s = true →
  fs !! i = Some d → pages d !! 0%nat = Some p →
  plan_of env s old_text new_text p fs = (rp, fs, []) →
  (∀ p', rp ≠ inr (Some p')) →
  strategy_fn env s i o old_text new_text fs
  = (inr false, fs, [EvCall s; EvOpen i; EvReturn s false]).
Proof.
  intros Hs Hd Hp Hplan Hrp. rewrite in_place_fn by done.
  pose proof (page_strategy_run env _ i o _ _ _ _ Hd Hp Hplan) as Hrun.
  destruct rp as [e|[p'|] ]; [|by destruct (Hrp p')|];
    by rewrite (guarded_spec _ _ _ _ _ _ Hrun).
Qed.

Lemma strategy_fails_not_found s i o old_text new_text fs d p :
  s ≠ Simple →
  fs !! i = Some d → pages d !! 0%nat = Some p →
  find_target_span (get_text_blocks p) old_text = None →
  strategy_fn env s i o old_text new_text fs
  = (inr false, fs, [EvCall s; EvOpen i; EvReturn s false]).
Proof.
  intros Hs Hd Hp Hfind.
  destruct (non_simple_cases s Hs) as [Hin|Hre].
  - apply (in_place_fails s i o old_text new_text fs d p (inr None)); try done.
    destruct s; try discriminate Hin;
      unfold plan_of, clean_plan, minimal_plan, overlay_plan, standard_plan;
      by rewrite Hfind.
  - by apply rebuild_strategies_never_succeed.
Qed.

Lemma insert_text_no_font page point text fontsize fontname color fs :
  text ≠ "" → font_resolves env fontname = false →
  insert_text env page point text fontsize fontname color fs = (inl FontError, fs, []).
Proof.
  intros Htext Hfont. unfold insert_text.
  destruct text; [done|]. simpl. by rewrite Hfont.
Qed.

Lemma strategy_fails_no_font s i o old_text new_text fs d p target :
  s ≠ Simple →
  fs !! i = Some d → pages d !! 0%nat = Some p →
  find_target_span (get_text_blocks p) old_text = Some target →
  font_resolves env (span_font target) = false → new_text ≠ "" →
  strategy_fn env s i o old_text new_text fs
  = (inr false, fs, [EvCall s; EvOpen i; EvReturn s false]).
Proof.
  intros Hs Hd Hp Hfind Hfont Hnew.
  destruct (non_simple_cases s Hs) as [Hin|Hre];
    [|by apply rebuild_strategies_never_succeed].
  destruct (decide (s = Standard)) as [->|Hstd].
  - destruct (search_for env p old_text) as [|r rs] eqn:Hsearch.
    + apply (in_place_fails Standard i o old_text new_text fs d p (inr None));
        try done.
      unfold plan_of, standard_plan. by rewrite Hfind, Hsearch.
    + apply (in_place_fails Standard i o old_text new_text fs d p (inl FontError));
        try done.
      unfold plan_of, standard_plan. rewrite Hfind, Hsearch.
      unfold bindM. cbn [foldM]. unfold bindM, replace_instance, bindM.
      rewrite accent_color_eq. by rewrite insert_text_no_font.
  - apply (in_place_fails s i o old_text new_text fs d p (inl FontError)); try done.
    destruct s; try discriminate Hin; try done;
      unfold plan_of, clean_plan, minimal_plan, overlay_plan; rewrite Hfind;
      unfold bindM; rewrite accent_color_eq; by rewrite insert_text_no_font.
Qed.

End StrategyRuns.

(** X6: on a readable input whose page 0 has no span containing the old
    text, each of the six text-replacing strategies returns [False] after
    opening the input: it makes no directory and writes nothing, and the file
    system is left as it was. *)
Theorem text_not_found_fails env s i o old_text new_text fs d p :
  s ≠ Simple →
  fs !! i = Some d → pages d !! 0%nat = Some p →
  find_target_span (get_text_blocks p) old_text = None →
  strategy_fn env s i o old_text new_text fs
  = (inr false, fs, [EvCall s; EvOpen i; EvReturn s false]).
Proof. apply strategy_fails_not_found. Qed.

Lemma text_not_found_fails_witness :
  strategy_fn demo_env Minimal "in.pdf" "out.pdf" "KYC Report" "PD Report" plain_fs
  = (inr false, plain_fs, [EvCall Minimal; EvOpen "in.pdf"; EvReturn Minimal false]).
Proof.
  apply (text_not_found_fails demo_env Minimal "in.pdf" "out.pdf" "KYC Report"
           "PD Report" plain_fs plain_doc plain_page);
    [discriminate | reflexivity | reflexivity | reflexivity].
Defined.

(** X7: when the span found on page 0 names a font the backend cannot
    resolve (and the new text is not empty), each of the six text-replacing
    strategies returns [False] without writing anything: the text insertion
    raises before the output is touched. *)
Theorem unresolvable_font_fails env s i o old_text new_text fs d p target :
  s ≠ Simple →
  fs !! i = Some d → pages d !! 0%nat = Some p →
  find_target_span (get_text_blocks p) old_text = Some target →
  font_resolves env (span_font target) = false → new_text ≠ "" →
  strategy_fn env s i o old_text new_text fs
  = (inr false, fs, [EvCall s; EvOpen i; EvReturn s false]).
Proof. apply strategy_fails_no_font. Qed.

Lemma unresolvable_font_fails_witness :
  strategy_fn nofont_env Standard "in.pdf" "out.pdf" "KYC Report" "PD Report" title_fs
  = (inr false, title_fs, [EvCall Standard; EvOpen "in.pdf"; EvReturn Standard false]).
Proof.
  apply (unresolvable_font_fails nofont_env Standard "in.pdf" "out.pdf" "KYC Report"
           "PD Report" title_fs title_doc title_page title_span);
    [discriminate | reflexivity | reflexivity | reflexivity | reflexivity | discriminate].
Defined.

(** ** Successful runs of the in-place strategies *)

Section InPlaceSuccess.

Context (env : Env).

Lemma insert_text_drawn page target point new_text fs :
  new_text ≠ "" → font_resolves env (span_font target) = true →
  insert_text env page point new_text (span_size target) (span_font target)
    [0 # 255; 102 # 255; 204 # 255]%Q fs
  = (inr (with_drawn page (drawn_span env target point new_text)), fs, []).
Proof.
  intros Hnew Hfont. unfold insert_text.
  destruct new_text; [done|]. cbn [PyStr.truthy negb]. by rewrite Hfont.
Qed.

Lemma in_place_succeeds s i o old_text new_text fs d p p' :
  in_place s = true →
  fs !! i = Some d → pages d !! 0%nat = Some p →
  plan_of env s old_text new_text p fs = (inr (Some p'), fs, []) →
  mkdir_ok env o = true → writable env o = true → o ≠ i →
  strategy_fn env s i o old_text new_text fs
  = (inr true, <[o := set_page0 d p']> fs,
     [EvCall s; EvOpen i; EvMkdir o; EvWrite o; EvReturn s true]).
Proof.
  intros Hs Hd Hp Hplan Hmk Hw Hne. rewrite in_place_fn by done.
  pose proof (page_strategy_run env _ i o _ _ _ _ Hd Hp Hplan) as Hrun.
  apply String.eqb_neq in Hne. cbv beta iota in Hrun. rewrite Hmk, Hne, Hw in Hrun.
  by rewrite (guarded_spec _ _ _ _ _ _ Hrun).
Qed.

Lemma all_spans_app b1 b2 : all_spans (b1 ++ b2) = all_spans b1 ++ all_spans b2.
Proof. unfold all_spans. by rewrite fmap_app, concat_app. Qed.

Lemma page_spans_with_drawn page span :
  page_spans (with_drawn page span) = page_spans page ++ [span].
Proof. unfold page_spans, with_drawn; simpl. by rewrite all_spans_app. Qed.




End InPlaceSuccess.

(** X8: the clean strategy, when it finds a span, can resolve its font and
    can write the output, changes page 0 by additions only: it paints a white
    rectangle over the span's box grown by 3 units on every side and draws the
    new text at the left end of the box, 5 units above its bottom edge, in the
    font and size of the span.  No span is removed, so the old text stays on
    the page; the other pages are carried over. *)
Theorem clean_only_adds env i o old_text new_text fs d p target :
  fs !! i = Some d → pages d !! 0%nat = Some p →
  find_target_span (get_text_blocks p) old_text = Some target →
  new_text ≠ "" → font_resolves env (span_font target) = true →
  mkdir_ok env o = true → writable env o = true → o ≠ i →
  ∃ p',
    replace_text_clean env i o old_text new_text fs
    = (inr true, <[o := set_page0 d p']> fs,
       [EvCall Clean; EvOpen i; EvMkdir o; EvWrite o; EvReturn Clean true]) ∧
    page_spans p'
    = page_spans p ++
      [drawn_span env target
         (mkPoint (x0 (span_bbox target)) (y1 (span_bbox target) - 5)) new_text] ∧
    page_drawings p'
    = page_drawings p ++ [FilledRect (expand 3 (span_bbox target)) white white] ∧
    page_width p' = page_width p ∧ page_height p' = page_height p ∧
    (∀ s, s ∈ page_spans p → s ∈ page_spans p').
Proof.
  intros Hd Hp Hfind Hnew Hfont Hmk Hw Hne.
  eexists. split.
  - apply (in_place_succeeds env Clean i o old_text new_text fs d p); try done.
    unfold plan_of, clean_plan. rewrite Hfind. unfold bindM.
    rewrite accent_color_eq. by rewrite insert_text_drawn.
  - rewrite page_spans_with_drawn. split; [done|]. split; [done|].
    split; [done|]. split; [done|]. intros s Hs. apply elem_of_app. by left.
Qed.

Lemma clean_only_adds_witness :
  ∃ p',
    replace_text_clean demo_env "in.pdf" "out.pdf" "KYC Report" "PD Report" title_fs
    = (inr true, <["out.pdf" := set_page0 title_doc p']> title_fs,
       [EvCall Clean; EvOpen "in.pdf"; EvMkdir "out.pdf"; EvWrite "out.pdf";
        EvReturn Clean true]) ∧
    page_spans p'
    = page_spans title_page ++
      [drawn_span demo_env title_span
         (mkPoint (x0 (span_bbox title_span)) (y1 (span_bbox title_span) - 5))
         "PD Report"] ∧
    page_drawings p'
    = page_drawings title_page
      ++ [FilledRect (expand 3 (span_bbox title_span)) white white] ∧
    page_width p' = page_width title_page ∧ page_height p' = page_height title_page ∧
    (∀ s, s ∈ page_spans title_page → s ∈ page_spans p').
Proof.
  apply (clean_only_adds demo_env "in.pdf" "out.pdf" "KYC Report" "PD Report"
           title_fs title_doc title_page title_span);
    [reflexivity | reflexivity | reflexivity | discriminate | reflexivity
    | reflexivity | reflexivity | discriminate].
Defined.






(** ** The standard strategy *)

Section Standard.

Context (env : Env).


End Standard.



(** ** The pipeline as a whole *)

Section PipelineRuns.

Context (env : Env).

Lemma simple_run i o fs d :
  fs !! i = Some d → mkdir_ok env o = true → writable env o = true →
  process_pdf_simple env i o fs
  = (inr true, <[o := {| pages := imap (simple_page env) (pages d) |}]> fs,
     [EvCall Simple; EvOpen i; EvMkdir o; EvWrite o; EvReturn Simple true]).
Proof.
  intros Hd Hmk Hw. unfold process_pdf_simple.
  rewrite (guarded_spec _ _ fs (inr true)
             (<[o := {| pages := imap (simple_page env) (pages d) |}]> fs)
             [EvOpen i; EvMkdir o; EvWrite o]); [reflexivity|].
  unfold process_pdf_simple_body, open_document, mkdir_parent, write_file,
    bindM, emit, lift_option, ret, raise.
  by rewrite Hd, Hmk, Hw.
Qed.

Lemma simple_pages_unchanged (d : Document) p :
  pages d !! 0%nat = Some p →
  PyStr.contains "KYC Report" (extract_text p) = false →
  {| pages := imap (simple_page env) (pages d) |} = d.
Proof.
  intros Hp Hno. destruct d as [ps]. f_equal. simpl in *.
  apply list_eq. intros n. rewrite list_lookup_imap.
  destruct (ps !! n) as [q|] eqn:Hq; [|done]. simpl. f_equal.
  destruct n as [|n]; [|done].
  assert (q = p) as -> by congruence.
  unfold simple_page. simpl. by rewrite Hno.
Qed.

Lemma simple_pages_watermarked (d : Document) p :
  pages d !! 0%nat = Some p →
  PyStr.contains "KYC Report" (extract_text p) = true →
  imap (simple_page env) (pages d) = merge_watermark env p :: drop 1 (pages d).
Proof.
  intros Hp Hyes. destruct d as [ [|q ps] ]; simpl in *; [done|].
  injection Hp as ->. unfold simple_page at 1. simpl. rewrite Hyes. f_equal.
  rewrite drop_0. apply list_eq. intros n. by rewrite list_lookup_imap, option_fmap_id.
Qed.

(** When every text-replacing strategy fails on the initial file system, a
    run entered at any method is the failed attempts followed by simple. *)
Lemma falls_to_simple i o s0 fs r fs' t :
  (∀ s, s ≠ Simple →
     strategy_fn env s i o "KYC Report" "PD Report" fs
     = (inr false, fs, [EvCall s; EvOpen i; EvReturn s false])) →
  process_pdf_simple env i o fs = (inr r, fs', t) →
  ∃ t', process_pdf env i o (method_name s0) fs = (inr r, fs', t') ∧
        attempts t' = failed_attempts (replacing_from s0) ++ attempts t ∧
        writes t' = writes t.
Proof.
  intros Hfail Hsimple.
  assert (H1 := Hfail Clean). assert (H2 := Hfail Minimal).
  assert (H3 := Hfail Direct). assert (H4 := Hfail Overlay).
  assert (H5 := Hfail Precise). assert (H6 := Hfail Standard).
  cbn [strategy_fn] in *.
  rewrite process_pdf_is_chain.
  destruct s0; cbn [rank drop default_order chain_of fmap list_fmap run_chain strategy_fn];
    unfold bindM;
    rewrite ?H1, ?H2, ?H3, ?H4, ?H5, ?H6 by done; rewrite ?Hsimple;
    destruct r; (eexists; split; [reflexivity|]);
    rewrite ?attempts_app, ?writes_app, ?app_nil_r; split; reflexivity.
Qed.

End PipelineRuns.

(** X11: when page 0 of a readable input has no span containing
    "KYC Report", or has one whose font cannot be resolved, and the output can
    be written, a run entered at any method fails through every
    text-replacing strategy from there on and ends in simple, which reports
    success: the one file written is the input itself when the extracted text
    of page 0 does not contain "KYC Report", and the input with the watermark
    merged into page 0 when it does. *)
Theorem unreplaceable_text_ends_in_simple env i o s0 fs d p :
  fs !! i = Some d → pages d !! 0%nat = Some p →
  find_target_span (get_text_blocks p) "KYC Report" = None ∨
    (∃ target, find_target_span (get_text_blocks p) "KYC Report" = Some target ∧
               font_resolves env (span_font target) = false) →
  mkdir_ok env o = true → writable env o = true →
  ∃ t d',
    process_pdf env i o (method_name s0) fs = (inr true, <[o := d']> fs, t) ∧
    attempts t = failed_attempts (replacing_from s0) ++ [(Simple, true)] ∧
    writes t = [o] ∧
    (PyStr.contains "KYC Report" (extract_text p) = false → d' = d) ∧
    (PyStr.contains "KYC Report" (extract_text p) = true →
       pages d' = merge_watermark env p :: drop 1 (pages d)).
Proof.
  intros Hd Hp Hcase Hmk Hw.
  assert (Hfail : ∀ s, s ≠ Simple →
            strategy_fn env s i o "KYC Report" "PD Report" fs
            = (inr false, fs, [EvCall s; EvOpen i; EvReturn s false])).
  { intros s Hs. destruct Hcase as [Hnone|(target & Hfind & Hfont)].
    - by apply (strategy_fails_not_found env s i o _ _ fs d p).
    - by apply (strategy_fails_no_font env s i o _ _ fs d p target). }
  destruct (falls_to_simple env i o s0 fs _ _ _ Hfail (simple_run env i o fs d Hd Hmk Hw))
    as (t' & E & Ha & Hwr).
  exists t', {| pages := imap (simple_page env) (pages d) |}.
  split; [exact E|]. split; [exact Ha|]. split; [exact Hwr|]. split.
  - by apply simple_pages_unchanged.
  - by apply simple_pages_watermarked.
Qed.

Lemma unreplaceable_text_ends_in_simple_witness :
  ∃ t d',
    process_pdf demo_env "in.pdf" "out.pdf" (method_name Clean) plain_fs
      = (inr true, <["out.pdf" := d']> plain_fs, t) ∧
    attempts t = failed_attempts (replacing_from Clean) ++ [(Simple, true)] ∧
    writes t = ["out.pdf"] ∧
    (PyStr.contains "KYC Report" (extract_text plain_page) = false → d' = plain_doc) ∧
    (PyStr.contains "KYC Report" (extract_text plain_page) = true →
       pages d' = merge_watermark demo_env plain_page :: drop 1 (pages plain_doc)).
Proof.
  apply (unreplaceable_text_ends_in_simple demo_env "in.pdf" "out.pdf" Clean
           plain_fs plain_doc plain_page);
    [reflexivity | reflexivity | left; reflexivity | reflexivity | reflexivity].
Defined.

Lemma strategy_fails_unreadable env s i o old_text new_text fs :
  fs !! i = None →
  strategy_fn env s i o old_text new_text fs
  = (inr false, fs, [EvCall s; EvOpen i; EvReturn s false]).
Proof.
  intros Hd. destruct (decide (s = Simple)) as [->|Hs].
  - simpl. unfold process_pdf_simple.
    rewrite (guarded_spec _ _ fs (inl FileNotFoundError) fs [EvOpen i]); [done|].
    unfold process_pdf_simple_body, open_document, bindM, emit, lift_option, raise.
    by rewrite Hd.
  - destruct (non_simple_cases s Hs) as [Hin|Hre];
      [|by apply rebuild_strategies_never_succeed].
    rewrite in_place_fn by done.
    by rewrite (guarded_spec _ _ _ _ _ _ (page_strategy_unreadable env _ i o fs Hd)).
Qed.

(** X12: when the input path holds no readable document, a run entered at
    any method attempts every strategy from there to the end of the order,
    each fails after trying to open the input, and [process_pdf] returns
    [False]; it writes nothing and leaves the file system as it was. *)
Theorem unreadable_input_fails env i o s0 fs :
  fs !! i = None →
  ∃ t, process_pdf env i o (method_name s0) fs = (inr false, fs, t) ∧
       attempts t = failed_attempts (drop (rank s0) default_order) ∧
       writes t = [] ∧
       opens t = replicate (length (drop (rank s0) default_order)) i.
Proof.
  intros Hd. rewrite process_pdf_is_chain.
  assert (H : ∀ s, strategy_fn env s i o "KYC Report" "PD Report" fs
              = (inr false, fs, [EvCall s; EvOpen i; EvReturn s false])).
  { intros s. by apply strategy_fails_unreadable. }
  assert (H1 := H Clean). assert (H2 := H Minimal). assert (H3 := H Direct).
  assert (H4 := H Overlay). assert (H5 := H Precise). assert (H6 := H Standard).
  assert (H7 := H Simple). cbn [strategy_fn] in *.
  destruct s0; cbn [rank drop default_order chain_of fmap list_fmap run_chain strategy_fn];
    unfold bindM; rewrite ?H1, ?H2, ?H3, ?H4, ?H5, ?H6, ?H7;
    (eexists; split; [reflexivity|]); repeat split; reflexivity.
Qed.

Lemma unreadable_input_fails_witness :
  ∃ t, process_pdf demo_env "missing.pdf" "out.pdf" (method_name Overlay) title_fs
         = (inr false, title_fs, t) ∧
       attempts t = failed_attempts (drop (rank Overlay) default_order) ∧
       writes t = [] ∧
       opens t = replicate (length (drop (rank Overlay) default_order)) "missing.pdf".
Proof.
  apply (unreadable_input_fails demo_env "missing.pdf" "out.pdf" Overlay title_fs).
  reflexivity.
Defined.

Lemma readable_run env i o s0 fs d :
  fs !! i = Some d → mkdir_ok env o = true → writable env o = true →
  ∃ t d',
    process_pdf env i o (method_name s0) fs = (inr true, <[o := d']> fs, t) ∧
    writes t = [o] ∧
    length (pages d') = length (pages d) ∧
    (∀ n, (1 ≤ n)%nat → pages d' !! n = pages d !! n).
Proof.
  intros Hd Hmk Hw.
  destruct (process_pdf_from env i o s0 fs) as (b & fs' & t & failed & E & Hfail & H).
  destruct H as [(-> & -> & _)|(-> & s' & rest & d' & Hord & Es & _ & _ & -> & _ & Hwr)].
  - exfalso. rewrite Forall_forall in Hfail.
    assert (Hin : Simple ∈ drop (rank s0) default_order).
    { destruct s0; simpl;
        repeat first [apply list_elem_of_here | apply list_elem_of_further]. }
    apply Hfail in Hin. unfold verdict_of in Hin. cbn [strategy_fn] in Hin.
    rewrite (simple_run env i o fs d Hd Hmk Hw) in Hin. discriminate Hin.
  - destruct (strategy_fn_run env s' i o "KYC Report" "PD Report" fs)
      as (ok & eff & t1 & Hrun & _ & _ & Heff).
    rewrite (Hrun fs eq_refl) in Es.
    destruct eff as [| |d1]; injection Es as -> Hmap _; [by destruct Heff..|].
    destruct Heff as (_ & _ & _ & d0 & Hd0 & [Hlen Htail] & _).
    assert (d1 = d') as ->.
    { simpl in Hmap.
      assert (Hl : (<[o := d1]> fs) !! o = (<[o := d']> fs) !! o) by by rewrite Hmap.
      rewrite !lookup_insert_eq in Hl. by injection Hl. }
    assert (d0 = d) as -> by congruence.
    exists t, d'. by repeat split.
Qed.

(** X13: on a readable input, with an output that can be written, a run
    entered at any of the seven methods returns [True], whatever page 0
    holds: the chain ends in simple, which does not depend on finding the
    text.  The document written has the input's page count and its pages
    from index 1 on. *)
Theorem readable_input_succeeds env i o s0 fs d :
  fs !! i = Some d → mkdir_ok env o = true → writable env o = true →
  ∃ t d',
    process_pdf env i o (method_name s0) fs = (inr true, <[o := d']> fs, t) ∧
    writes t = [o] ∧
    length (pages d') = length (pages d) ∧
    (∀ n, (1 ≤ n)%nat → pages d' !! n = pages d !! n).
Proof. apply readable_run. Qed.

Lemma readable_input_succeeds_witness :
  ∃ t d',
    process_pdf demo_env "in.pdf" "out.pdf" (method_name Standard) title_fs
      = (inr true, <["out.pdf" := d']> title_fs, t) ∧
    writes t = ["out.pdf"] ∧
    length (pages d') = length (pages title_doc) ∧
    (∀ n, (1 ≤ n)%nat → pages d' !! n = pages title_doc !! n).
Proof.
  apply (readable_input_succeeds demo_env "in.pdf" "out.pdf" Standard title_fs title_doc);
    reflexivity.
Defined.

(** X14: whatever the method and the outcome, [process_pdf] touches no path
    but the output path: every other file is after the run what it was
    before, and in particular the input survives unless the caller made it
    the output. *)
Theorem process_pdf_touches_output_only env i o method fs :
  ∃ b fs' t,
    process_pdf env i o method fs = (inr b, fs', t) ∧
    (∀ path, path ≠ o → fs' !! path = fs !! path) ∧
    (o ≠ i → fs' !! i = fs !! i) ∧
    (∀ path, path ∈ writes t → path = o).
Proof.
  destruct (recognized method) eqn:Hm.
  - apply recognized_true in Hm as [s0 ->].
    destruct (process_pdf_from env i o s0 fs) as (b & fs' & t & failed & E & _ & H).
    exists b, fs', t. split; [exact E|].
    assert (Hwrites : ∀ path, path ∈ writes t → path = o).
    { rewrite process_pdf_is_chain in E. exact (run_chain_writes env i o _ _ _ _ _ E). }
    assert (Hframe : ∀ path, path ≠ o → fs' !! path = fs !! path).
    { intros path Hne.
      destruct H as [(_ & _ & _ & _ & [(-> & _)|(-> & _)])|(_ & s & rest & d' & _ & _ & _ & _ & -> & _)].
      - done.
      - by apply lookup_delete_ne.
      - by apply lookup_insert_ne. }
    split; [exact Hframe|]. split; [|exact Hwrites].
    intros Hne. by apply Hframe.
  - exists false, fs, [].
    rewrite (process_pdf_unknown_method env i o method fs (recognized_false _ Hm)).
    repeat split; try done. intros path Hin. by apply elem_of_nil in Hin.
Qed.

(** ** Processing a directory *)





Section Directory.

Context (env : Env).



Lemma process_files_all_succeed output_dir s0 files :
  (∀ path, mkdir_ok env path = true) → (∀ path, writable env path = true) →
  ∀ successful failed fs,
    (∀ file, file ∈ files → is_Some (fs !! file)) →
    ∃ fs' t,
      foldM (process_file env output_dir (method_name s0)) (successful, failed) files fs
      = (inr ((successful + length files)%nat, failed), fs', t).
Proof.
  intros Hmk Hw. induction files as [|file files IH]; intros successful failed fs Hread.
  - exists fs, []. simpl. by rewrite Nat.add_0_r.
  - destruct (Hread file) as [d Hd]; [apply list_elem_of_here|].
    destruct (readable_run env file (path_join output_dir (path_name file)) s0 fs d
                Hd (Hmk _) (Hw _)) as (t1 & d' & E1 & _).
    cbn [foldM]. unfold bindM at 1. unfold process_file at 1. unfold bindM at 1.
    rewrite E1. cbn [ret].
    destruct (IH (S successful) failed
                (<[path_join output_dir (path_name file) := d']> fs))
      as (fs' & t & E).
    { intros f Hf. destruct (decide (f = path_join output_dir (path_name file))) as [->|Hne].
      - rewrite lookup_insert_eq. by eexists.
      - rewrite lookup_insert_ne by done. apply Hread. by apply list_elem_of_further. }
    rewrite E. exists fs', ((t1 ++ []) ++ t).
    replace (successful + length (file :: files))%nat
      with (S successful + length files)%nat by (simpl; lia).
    done.
Qed.

End Directory.

Lemma glob_pdf_names tree directory :
  glob_pdf tree directory = path_join directory <$> pdf_names tree directory.
Proof. reflexivity. Qed.


(** X16: when every listed PDF file is readable and every output can be
    written, [process_directory] with any of the seven methods counts every
    file as successful and none as failed, whether or not a file contains the
    text to replace. *)
Theorem process_directory_all_succeed env tree input_dir output_dir s0 fs :
  node_exists tree input_dir = true → node_is_dir tree input_dir = true →
  pdf_names tree input_dir ≠ [] →
  can_mkdir tree (resolved_output_dir input_dir output_dir) = true →
  (∀ path, mkdir_ok env path = true) → (∀ path, writable env path = true) →
  forallb (fun name => bool_decide (is_Some (fs !! path_join input_dir name)))
    (pdf_names tree input_dir) = true →
  ∃ fs' t,
    process_directory env tree input_dir output_dir (method_name s0) fs
      = (inr (Some (length (pdf_names tree input_dir), 0%nat)), fs', t).
Proof.
  intros Hex Hdir Hne Hcan Hmk Hw Hread.
  destruct (process_files_all_succeed env (resolved_output_dir input_dir output_dir) s0
              (glob_pdf tree input_dir) Hmk Hw 0%nat 0%nat fs)
    as (fs' & t & E).
  { intros file Hfile. rewrite glob_pdf_names in Hfile.
    apply list_elem_of_fmap in Hfile as (name & -> & Hname).
    rewrite forallb_forall in Hread. apply list_elem_of_In, Hread in Hname.
    by apply bool_decide_eq_true in Hname. }
  exists fs', t.
  unfold process_directory, find_pdf_files. rewrite Hex, Hdir. cbn [negb].
  unfold bindM at 1. unfold ret at 1. cbv beta iota.
  fold (resolved_output_dir input_dir output_dir).
  destruct (glob_pdf tree input_dir) as [|file files] eqn:Hglob.
  { rewrite glob_pdf_names in Hglob. apply fmap_nil_inv in Hglob. done. }
  rewrite Hcan. unfold bindM, ret. rewrite E. rewrite app_nil_r.
  rewrite <- Hglob, glob_pdf_names, length_fmap. done.
Qed.


Lemma process_directory_all_succeed_witness :
  ∃ fs' t,
    process_directory demo_env demo_tree "PD" None (method_name Clean) demo_dir_fs
      = (inr (Some (length (pdf_names demo_tree "PD"), 0%nat)), fs', t).
Proof.
  apply (process_directory_all_succeed demo_env demo_tree "PD" None Clean demo_dir_fs);
    [reflexivity | reflexivity | by vm_compute | reflexivity
    | intros; reflexivity | intros; reflexivity | by vm_compute].
Defined.

(** ** Completion of the copy loop *)

Section CopyCompletes.

Context (env : Env) (old_text new_text : string).

Lemma decided_foldM {B} (ok : B → bool) (body : Page → B → M Page) :
  decided_by ok body → decided_by (forallb ok) (foldM body).
Proof.
  intros Hbody np xs. revert np.
  induction xs as [|x xs IH]; intros np fs; simpl.
  - by exists np.
  - specialize (Hbody np x fs). unfold bindM. destruct (ok x); simpl.
    + destruct Hbody as [np1 ->]. specialize (IH np1 fs).
      destruct (forallb ok xs).
      * destruct IH as [np' ->]. by exists np'.
      * destruct IH as [e ->]. by exists e.
    + destruct Hbody as [e ->]. by exists e.
Qed.

Lemma copy_span_decided :
  decided_by (drawable env old_text new_text) (copy_span env old_text new_text).
Proof.
  intros np s fs. unfold drawable, copy_span, emitted.
  fold (copied_text old_text new_text s).
  destruct (PyStr.truthy (PyStr.strip (copied_text old_text new_text s))) eqn:Hemit;
    cbn [negb orb]; [|by eexists].
  apply truthy_strip in Hemit. unfold bindM, insert_text. rewrite Hemit. cbn [negb].
  destruct (PyStr.contains new_text (copied_text old_text new_text s)).
  - rewrite accent_color_eq. cbn [orb].
    change (color_ok [0 # 255; 102 # 255; 204 # 255]%Q) with true.
    unfold ret, raise.
    destruct (font_resolves env (span_font s)); cbn [negb andb orb]; by eexists.
  - unfold ret, raise. cbn [orb].
    destruct (font_resolves env (span_font s)); cbn [negb andb orb]; [|by eexists].
    destruct (color_ok (normalize_color (span_color s))); cbn [negb andb orb];
      by eexists.
Qed.

Lemma forallb_concat {A} (f : A → bool) (ls : list (list A)) :
  forallb f (concat ls) = forallb (forallb f) ls.
Proof.
  induction ls as [|l ls IH]; [done|]. simpl. by rewrite forallb_app, IH.
Qed.

Lemma forallb_fmap {A B} (f : B → bool) (g : A → B) (l : list A) :
  forallb f (g <$> l) = forallb (fun x => f (g x)) l.
Proof. induction l as [|x l IH]; [done|]. csimpl. by rewrite IH. Qed.

Lemma copy_blocks_decided :
  decided_by (fun b => forallb (drawable env old_text new_text) (block_spans b))
             (copy_block env old_text new_text).
Proof.
  intros np b fs. destruct b as [lines|]; simpl; [|by eexists].
  unfold block_spans; simpl. rewrite forallb_concat.
  apply (decided_foldM (forallb (drawable env old_text new_text))
           (copy_line env old_text new_text)).
  apply (decided_foldM _ (copy_span env old_text new_text)), copy_span_decided.
Qed.

End CopyCompletes.

(** X17: the copy loop of the direct and precise strategies runs to the end
    exactly when every span it draws can be drawn: its font is resolved by
    the backend and, where the span keeps its own colour, the components lie
    between 0 and 1.  One span that cannot be drawn makes the whole loop, and
    with it the strategy, fail with an exception; blank spans and image
    blocks never do. *)
Theorem copy_loop_completes_iff env old_text new_text np blocks fs :
  (∃ np', copy_blocks env old_text new_text np blocks fs = (inr np', fs, []))
  ↔ forallb (drawable env old_text new_text) (all_spans blocks) = true.
Proof.
  pose proof (decided_foldM _ _ (copy_blocks_decided env old_text new_text)
                np blocks fs) as H.
  unfold all_spans. rewrite forallb_concat, forallb_fmap.
  unfold copy_blocks. destruct (forallb _ blocks).
  - split; [done|]. intros _. exact H.
  - split; [|done]. intros [np' E]. destruct H as [e H]. congruence.
Qed.
